(** * The goal sequencer of smb_mission_planner

    A shallow embedding of [src/smb_mission_planner/mission_planner.py]
    (class [Mission], a [smach.State]) and the properties of its [execute]
    method: arrival detection, first-goal abort, mid-mission skip, completion,
    the index invariant, the treatment of missing feedback, the bound on the
    wait loop, the active-goal snapshot and the frame of [execute].

    Python floats are IEEE 754 binary64 numbers and are modelled by Rocq's
    primitive floats, Python integers by [Z]. Python exceptions are values of
    an error monad; the attributes of [self], the log, the published messages
    and the sleeps are threaded through a state.

    The file is run by [python3] (its first line). What the model takes
    from outside the file:
    - [self.mission_data] is an ordered mapping from goal names to goals with
      float coordinates (the [OrderedDict] that [oyaml] loads), and [keys()]
      is a view of its names, which has a length and cannot be subscripted;
    - [pow(x, 2)] is the [float.__pow__] of CPython, which settles the
      special values itself and leaves the rest to the [pow] of the C
      library, a parameter here together with the [errno] it sets;
    - the two functions of [tf.transformations] are parameters and return a
      value on every argument: an infinite yaw, on which the [math.cos] of
      [quaternion_from_euler] raises, is outside the model;
    - the subscriber runs [poseCallback] while [execute] sleeps, one batch of
      messages per sleep; a message handled at any other moment of the loop
      is seen by the same next check;
    - the clock advances by the length of each sleep. *)

From Stdlib Require Import ZArith List String Bool Lia.
From Stdlib Require Import PrimFloat FloatOps SpecFloat.
From Stdlib Require FloatAxioms.
From Stdlib Require Import DecimalString.
Import ListNotations.

Set Warnings "-inexact-float".

Open Scope string_scope.
Open Scope list_scope.
Open Scope Z_scope.

(** ** Python values *)

(** The exceptions that the modelled code can raise. *)
Inductive Exn : Type :=
| AttributeError
| TypeError
| KeyError
| OverflowError
| ValueError.

Inductive Result (A : Type) : Type :=
| Ok (a : A)
| Raise (e : Exn).

Arguments Ok {A} a.
Arguments Raise {A} e.

(** A Python number: [self.goal_idx] holds an [int] after [__init__] and
    after [+= 1], and a [float] after the assignment [self.goal_idx = 0.]. *)
Inductive PyNum : Type :=
| PyInt (z : Z)
| PyFloat (f : float).

(** Exact comparison of a float with an integer, as Python does it:
    [Z.compare], or [None] for a NaN, which is unordered. *)
Definition float_compare_Z (f : float) (n : Z) : option comparison :=
  match Prim2SF f with
  | S754_nan => None
  | S754_infinity s => Some (if s then Lt else Gt)
  | S754_zero _ => Some (0 ?= n)
  | S754_finite s m e =>
      let v := if s then Z.neg m else Z.pos m in
      Some (if 0 <=? e then (v * 2 ^ e ?= n) else (v ?= n * 2 ^ (- e)))
  end.

(** [a >= n] for an integer [n]. *)
Definition py_ge (a : PyNum) (n : Z) : bool :=
  match a with
  | PyInt z => n <=? z
  | PyFloat f =>
      match float_compare_Z f n with
      | Some Lt | None => false
      | Some _ => true
      end
  end.

(** [a == n] for an integer [n]. *)
Definition py_eq (a : PyNum) (n : Z) : bool :=
  match a with
  | PyInt z => z =? n
  | PyFloat f =>
      match float_compare_Z f n with
      | Some Eq => true
      | _ => false
      end
  end.

(** [a <= n] for an integer [n]. *)
Definition py_le (a : PyNum) (n : Z) : bool :=
  match a with
  | PyInt z => z <=? n
  | PyFloat f =>
      match float_compare_Z f n with
      | Some Gt | None => false
      | Some _ => true
      end
  end.

(** [a + 1]. *)
Definition py_succ (a : PyNum) : PyNum :=
  match a with
  | PyInt z => PyInt (z + 1)
  | PyFloat f => PyFloat (f + 1)%float
  end.

(** [str(n)] for a natural number. *)
Definition py_str (n : nat) : string := NilEmpty.string_of_uint (Nat.to_uint n).

(** [math.sqrt]: [ValueError] on a negative argument. *)
Definition math_sqrt (x : float) : Result float :=
  if (x <? 0)%float then Raise ValueError else Ok (sqrt x).

(** ** Messages and the mission data *)

Record Quaternion : Type := mkQuaternion
  { qx : float; qy : float; qz : float; qw : float }.

Record Header : Type := mkHeader
  { seq : Z; stamp_secs : Z; stamp_nsecs : Z; frame_id : string }.

Record Point : Type := mkPoint { point_x : float; point_y : float; point_z : float }.

Record PoseStamped : Type := mkPoseStamped
  { header : Header; position : Point; orientation : Quaternion }.

(** One goal of the YAML file: [{x_m, y_m, yaw_rad}]. *)
Record Goal : Type := mkGoal { x_m : float; y_m : float; yaw_rad : float }.

(** The ordered mapping from goal names to goals. *)
Definition PyDict : Type := list (string * Goal).

(** The view that [d.keys()] returns in Python 3. *)
Inductive KeysView : Type := keys_view (names : list string).

Definition keys (d : PyDict) : KeysView := keys_view (map fst d).

(** [len(v)] on a view of keys. *)
Definition view_len (v : KeysView) : Z :=
  let '(keys_view names) := v in Z.of_nat (List.length names).

(** [v[i]] on a view of keys: the view is not subscriptable, whatever the
    index. *)
Definition view_getitem (v : KeysView) (i : PyNum) : Result string :=
  Raise TypeError.

(** [len(d.keys())]. *)
Definition len (d : PyDict) : Z := view_len (keys d).

Fixpoint dict_find (d : PyDict) (k : string) : option Goal :=
  match d with
  | [] => None
  | (k', g) :: d' => if String.eqb k' k then Some g else dict_find d' k
  end.

(** [d[k]]. *)
Definition dict_getitem (d : PyDict) (k : string) : Result Goal :=
  match dict_find d k with
  | Some g => Ok g
  | None => Raise KeyError
  end.

(** ** The state *)

(** The attributes of a [Mission] object. The goal and estimate attributes
    do not exist until [setGoal] and [poseCallback] first assign them. *)
Record Mission : Type := mkMission
  { mission_data : PyDict;
    goal_idx : PyNum;
    distance_to_goal_tolerance_m : float;
    angle_to_goal_tolerance_rad : float;
    goal_x_m : option float;
    goal_y_m : option float;
    goal_yaw_rad : option float;
    estimated_x_m : option float;
    estimated_y_m : option float;
    estimated_yaw_rad : option float }.

Inductive Severity : Type := Info | Warn.

(** What an activation does to the outside, in the order it happens.
    [Checked b] marks one call of [reachedGoalWithTolerance] and its result. *)
Inductive Event : Type :=
| Log (s : Severity) (msg : string)
| Publish (msg : PoseStamped)
| Sleep (secs : Z)
| Checked (b : bool).

(** The ROS side: the events so far, the pose messages that will be
    delivered during each coming sleep (one batch per sleep), the clock, and
    whether [loginfo_once] of [poseCallback] has fired. *)
Record Ros : Type := mkRos
  { trace : list Event;
    inbox : list (list PoseStamped);
    rostime : Z * Z;
    logged_once : bool }.

Record World : Type := mkWorld { self : Mission; ros : Ros }.

Inductive Outcome : Type := Completed | Aborted | Next_Goal.

(** ** The monad: state and exceptions *)

Definition M (A : Type) : Type := World -> Result A * World.

Definition ret {A : Type} (a : A) : M A := fun w => (Ok a, w).

Definition bind {A B : Type} (c : M A) (k : A -> M B) : M B :=
  fun w =>
    match c w with
    | (Ok a, w') => k a w'
    | (Raise e, w') => (Raise e, w')
    end.

Definition lift {A : Type} (r : Result A) : M A := fun w => (r, w).

Declare Scope py_scope.
Delimit Scope py_scope with py.
Notation "x <- c ;; k" := (bind c (fun x => k))
  (at level 61, c at next level, right associativity) : py_scope.
Notation "c ;;; k" := (bind c (fun _ => k))
  (at level 61, right associativity) : py_scope.
Open Scope py_scope.

(** [try: body except: handler]. *)
Definition try_except {A : Type} (body : M A) (handler : M A) : M A :=
  fun w =>
    match body w with
    | (Ok a, w') => (Ok a, w')
    | (Raise _, w') => handler w'
    end.

Definition get_self : M Mission := fun w => (Ok (self w), w).

Definition put_self (m : Mission) : M unit :=
  fun w => (Ok tt, mkWorld m (ros w)).

Definition emit (e : Event) : M unit :=
  fun w =>
    let r := ros w in
    (Ok tt, mkWorld (self w)
              (mkRos (trace r ++ [e]) (inbox r) (rostime r) (logged_once r))).

Definition loginfo (msg : string) : M unit := emit (Log Info msg).
Definition logwarn (msg : string) : M unit := emit (Log Warn msg).

(** Reading an attribute that may not exist yet. *)
Definition getattr {A : Type} (f : Mission -> option A) : M A :=
  fun w =>
    match f (self w) with
    | Some a => (Ok a, w)
    | None => (Raise AttributeError, w)
    end.

(** [self.goal_idx = v] as a function on the state. *)
Definition with_goal_idx (v : PyNum) (m : Mission) : Mission :=
  mkMission (mission_data m) v
    (distance_to_goal_tolerance_m m) (angle_to_goal_tolerance_rad m)
    (goal_x_m m) (goal_y_m m) (goal_yaw_rad m)
    (estimated_x_m m) (estimated_y_m m) (estimated_yaw_rad m).

(** The three assignments that end [setGoal], as a function on the state. *)
Definition with_goal_pose (x y yaw : float) (m : Mission) : Mission :=
  mkMission (mission_data m) (goal_idx m)
    (distance_to_goal_tolerance_m m) (angle_to_goal_tolerance_rad m)
    (Some x) (Some y) (Some yaw)
    (estimated_x_m m) (estimated_y_m m) (estimated_yaw_rad m).

Definition set_goal_idx (v : PyNum) : M unit :=
  fun w => (Ok tt, mkWorld (with_goal_idx v (self w)) (ros w)).

Definition set_goal_pose (x y yaw : float) : M unit :=
  fun w => (Ok tt, mkWorld (with_goal_pose x y yaw (self w)) (ros w)).

(** The three assignments that end [poseCallback]. *)
Definition set_estimated (x y yaw : float) (m : Mission) : Mission :=
  mkMission (mission_data m) (goal_idx m)
    (distance_to_goal_tolerance_m m) (angle_to_goal_tolerance_rad m)
    (goal_x_m m) (goal_y_m m) (goal_yaw_rad m)
    (Some x) (Some y) (Some yaw).

(** [rospy.get_rostime()]. *)
Definition get_rostime : M (Z * Z) := fun w => (Ok (rostime (ros w)), w).

(** ** Reading the outside of an activation *)

Definition is_effect (e : Event) : bool :=
  match e with
  | Log _ _ => false
  | _ => true
  end.

(** The trace without its log lines: messages, sleeps and checks. *)
Definition effects (tr : list Event) : list Event := filter is_effect tr.

Definition is_sleep (e : Event) : bool :=
  match e with
  | Sleep _ => true
  | _ => false
  end.

Definition is_check (e : Event) : bool :=
  match e with
  | Checked _ => true
  | _ => false
  end.

Definition is_publish (e : Event) : bool :=
  match e with
  | Publish _ => true
  | _ => false
  end.

Definition sleeps (tr : list Event) : nat := List.length (filter is_sleep tr).
Definition checks (tr : list Event) : nat := List.length (filter is_check tr).
Definition publishes (tr : list Event) : nat := List.length (filter is_publish tr).

(** [n] rounds of the wait loop that did not see the goal reached. *)
Fixpoint ticks (n : nat) : list Event :=
  match n with
  | O => []
  | S n' => Checked false :: Sleep 1 :: ticks n'
  end.

Section Sequencer.

(** The [pow] of the C library: the result and the [errno] it leaves, 0
    for none. *)
Variable libm_pow : float -> float -> float * Z.

(** The two primitives of [tf.transformations] that the class calls. *)
Variable quaternion_from_euler : float -> float -> float -> Quaternion.
Variable euler_from_quaternion : Quaternion -> float * float * float.

(** ** The arrival check as a function *)

(** [ERANGE] of [errno.h]. *)
Definition ERANGE : Z := 34.

(** [_Py_ADJUST_ERANGE1]: an infinite result counts as a range error, a
    range error on a zero result does not. *)
Definition adjust_erange1 (ix : float) (errno : Z) : Z :=
  if errno =? 0 then
    if (ix =? infinity)%float || (ix =? neg_infinity)%float then ERANGE else 0
  else if (errno =? ERANGE) && (ix =? 0)%float then 0
  else errno.

(** [pow(x, 2)] on a float, as [float_pow] of CPython computes it for the
    exponent [2.0]: a NaN is returned as it is, an infinity as its absolute
    value, a zero as [0.0], and 1 for [x] of absolute value 1; otherwise the
    C library raises the absolute value of [x] to [2.0], and an [errno]
    left after adjustment becomes [OverflowError] or [ValueError]. *)
Definition py_pow2 (x : float) : Result float :=
  if is_nan x then Ok x
  else if is_infinity x then Ok (abs x)
  else if (x =? 0)%float then Ok 0%float
  else
    let iv := if (x <? 0)%float then (- x)%float else x in
    if (iv =? 1)%float then Ok 1%float
    else
      let '(ix, errno) := libm_pow iv 2%float in
      let errno' := adjust_erange1 ix errno in
      if errno' =? 0 then Ok ix
      else if errno' =? ERANGE then Raise OverflowError
      else Raise ValueError.

(** The condition that [reachedGoalWithTolerance] computes on a goal and
    an estimate, with the exceptions of [pow] and [math.sqrt] caught. *)
Definition code_check (tol_d tol_a : float)
    (g e : float * float * float) : bool :=
  let '(gx, gy, gyaw) := g in
  let '(ex, ey, eyaw) := e in
  match py_pow2 (gx - ex)%float with
  | Raise _ => false
  | Ok dx2 =>
      match py_pow2 (gy - ey)%float with
      | Raise _ => false
      | Ok dy2 =>
          match math_sqrt (dx2 + dy2)%float with
          | Raise _ => false
          | Ok distance_to_goal =>
              (distance_to_goal <=? tol_d)%float
              && (abs (gyaw - eyaw) <=? tol_a)%float
          end
      end
  end.

(** The active-goal snapshot and the pose estimate, when all three
    attributes of each exist. *)
Definition active_goal (m : Mission) : option (float * float * float) :=
  match goal_x_m m, goal_y_m m, goal_yaw_rad m with
  | Some x, Some y, Some yaw => Some (x, y, yaw)
  | _, _, _ => None
  end.

Definition estimate (m : Mission) : option (float * float * float) :=
  match estimated_x_m m, estimated_y_m m, estimated_yaw_rad m with
  | Some x, Some y, Some yaw => Some (x, y, yaw)
  | _, _, _ => None
  end.

(** What one call of [reachedGoalWithTolerance] answers in state [m]. *)
Definition arrived (m : Mission) : bool :=
  match active_goal m, estimate m with
  | Some g, Some e =>
      code_check (distance_to_goal_tolerance_m m)
        (angle_to_goal_tolerance_rad m) g e
  | _, _ => false
  end.

(** [self.goal_idx += 1] as a function on the state. *)
Definition bump (m : Mission) : Mission := with_goal_idx (py_succ (goal_idx m)) m.

(** The state once [setGoal] has recorded goal [g]. *)
Definition with_goal (g : Goal) (m : Mission) : Mission :=
  with_goal_pose (x_m g) (y_m g) (yaw_rad g) m.

(** The state without the pose estimate, which belongs to the subscriber. *)
Definition sequencer_state (m : Mission) :
    PyDict * PyNum * (float * float) * (option float * option float * option float) :=
  (mission_data m, goal_idx m,
   (distance_to_goal_tolerance_m m, angle_to_goal_tolerance_rad m),
   (goal_x_m m, goal_y_m m, goal_yaw_rad m)).

(** The pose estimate, which only [poseCallback] assigns. *)
Definition feedback_state (m : Mission) : option float * option float * option float :=
  (estimated_x_m m, estimated_y_m m, estimated_yaw_rad m).

(** The tolerances that [__init__] configures. *)
Definition configured (m : Mission) : Prop :=
  distance_to_goal_tolerance_m m = 0.3%float
  /\ angle_to_goal_tolerance_rad m = 0.7%float.

(** Lines 61 and 62 of [execute]: the name at the index, then its goal. *)
Definition current_goal (m : Mission) : Result (string * Goal) :=
  match view_getitem (keys (mission_data m)) (goal_idx m) with
  | Raise e => Raise e
  | Ok current_goal_name =>
      match dict_getitem (mission_data m) current_goal_name with
      | Raise e => Raise e
      | Ok g => Ok (current_goal_name, g)
      end
  end.

(** The activation finds a goal to publish: the index is below the goal
    count and lines 61 and 62 yield the goal [g] named [name]. *)
Definition selects (m : Mission) (name : string) (g : Goal) : Prop :=
  py_ge (goal_idx m) (len (mission_data m)) = false
  /\ current_goal m = Ok (name, g).

(** The invariant of the data model: the index lies in [[0, goalCount]]. *)
Definition index_in_range (m : Mission) : Prop :=
  py_ge (goal_idx m) 0 = true
  /\ py_le (goal_idx m) (len (mission_data m)) = true.

(** [Mission.__init__(mission_data)]. *)
Definition Mission_init (data : PyDict) : Mission :=
  mkMission data (PyInt 0) 0.3%float 0.7%float None None None None None None.

(** How a step leaves the world: the new state, and the effects added. *)
Definition leaves (w w' : World) (m' : Mission) (evs : list Event)
    (ib' : list (list PoseStamped)) : Prop :=
  self w' = m'
  /\ effects (trace (ros w')) = effects (trace (ros w)) ++ evs
  /\ inbox (ros w') = ib'.

(** ** Data to run the model on *)

(** Stand-ins for the two [tf] primitives on examples: the yaw is kept in
    the z component of the quaternion, so the second undoes the first. *)
Definition yaw_to_quaternion (roll pitch yaw : float) : Quaternion :=
  mkQuaternion 0 0 yaw 1.

Definition quaternion_to_yaw (q : Quaternion) : float * float * float :=
  (0%float, 0%float, qz q).

(** A feedback message with the pose [(x, y, yaw)]. *)
Definition pose_msg (x y yaw : float) : PoseStamped :=
  mkPoseStamped (mkHeader 0 0 0 "world") (mkPoint x y 0)
    (yaw_to_quaternion 0 0 yaw).

(** The mission of the scenario: [G0] at the origin, [G1] five metres on. *)
Definition two_goals : PyDict :=
  [("G0", mkGoal 0 0 0); ("G1", mkGoal 5 0 0)].

(** Two goals at the same place, half a radian apart in heading. *)
Definition near_goals : PyDict :=
  [("A", mkGoal 0 0 0); ("B", mkGoal 0 0 0.5)].

(** A new [Mission] on [data] and the feedback [ib] to come. *)
Definition fresh (data : PyDict) (ib : list (list PoseStamped)) : World :=
  mkWorld (Mission_init data) (mkRos [] ib (0, 0) false).

(** ** The class [Mission] *)

(** The message that [setGoal] builds at clock reading [t]. *)
Definition goal_message (t : Z * Z) (x y yaw : float) : PoseStamped :=
  mkPoseStamped (mkHeader 0 (fst t) (snd t) "world")
    (mkPoint x y 0%float) (quaternion_from_euler 0%float 0%float yaw).

(** [Mission.setGoal(x_m, y_m, yaw_rad)]: publish the goal, then record it. *)
Definition setGoal (x y yaw : float) : M unit :=
  let quaternion := quaternion_from_euler 0%float 0%float yaw in
  t1 <- get_rostime ;;
  t2 <- get_rostime ;;
  let pose_stamped_msg :=
    mkPoseStamped (mkHeader 0 (fst t1) (snd t2) "world")
      (mkPoint x y 0%float) quaternion in
  emit (Publish pose_stamped_msg) ;;;
  set_goal_pose x y yaw.

(** [rospy.loginfo_once]: only the first call logs. *)
Definition loginfo_once (msg : string) : M unit :=
  fun w =>
    let r := ros w in
    if logged_once r then (Ok tt, w)
    else (Ok tt, mkWorld (self w)
                   (mkRos (trace r ++ [Log Info msg]) (inbox r) (rostime r) true)).

(** The assignments of [poseCallback] as a function on the state. *)
Definition received (pose_stamped_msg : PoseStamped) (m : Mission) : Mission :=
  let x := point_x (position pose_stamped_msg) in
  let y := point_y (position pose_stamped_msg) in
  let '(_, _, yaw) := euler_from_quaternion (orientation pose_stamped_msg) in
  set_estimated x y yaw m.

(** [Mission.poseCallback(pose_stamped_msg)]. *)
Definition poseCallback (pose_stamped_msg : PoseStamped) : M unit :=
  loginfo_once "Estimated base pose received." ;;;
  m <- get_self ;;
  put_self (received pose_stamped_msg m).

(** [Mission.reachedGoalWithTolerance()]. A missing attribute, an overflow
    of [pow] and a domain error of [math.sqrt] all end in the bare [except]. *)
Definition reachedGoalWithTolerance : M bool :=
  try_except
    (gx <- getattr goal_x_m ;;
     ex <- getattr estimated_x_m ;;
     dx2 <- lift (py_pow2 (gx - ex)%float) ;;
     gy <- getattr goal_y_m ;;
     ey <- getattr estimated_y_m ;;
     dy2 <- lift (py_pow2 (gy - ey)%float) ;;
     distance_to_goal <- lift (math_sqrt (dx2 + dy2)%float) ;;
     gyaw <- getattr goal_yaw_rad ;;
     eyaw <- getattr estimated_yaw_rad ;;
     let angle_to_goal := abs (gyaw - eyaw)%float in
     m <- get_self ;;
     let distance_to_goal_satisfied :=
       (distance_to_goal <=? distance_to_goal_tolerance_m m)%float in
     let angle_to_goal_satisfied :=
       (angle_to_goal <=? angle_to_goal_tolerance_rad m)%float in
     ret (distance_to_goal_satisfied && angle_to_goal_satisfied))
    (logwarn "No estimated base pose received yet." ;;;
     ret false).

(** The subscriber's callbacks for one batch of messages, in order. *)
Fixpoint deliver (batch : list PoseStamped) : M unit :=
  match batch with
  | [] => ret tt
  | msg :: rest => poseCallback msg ;;; deliver rest
  end.

(** [rospy.sleep(secs)]: the clock advances and the messages that arrive
    meanwhile are handled by [poseCallback]. *)
Definition rospy_sleep (secs : Z) : M unit :=
  fun w =>
    let r := ros w in
    let w' :=
      mkWorld (self w)
        (mkRos (trace r ++ [Sleep secs]) (tl (inbox r))
           (fst (rostime r) + secs, snd (rostime r)) (logged_once r)) in
    deliver (hd [] (inbox r)) w'.

(** The [while countdown_s:] loop of [execute]; [Some o] when the loop
    returned [o] from [execute], [None] when the countdown ran out. *)
Fixpoint wait_loop (countdown_s : nat) : M (option Outcome) :=
  match countdown_s with
  | O => ret None
  | S rest =>
      reached <- reachedGoalWithTolerance ;;
      emit (Checked reached) ;;;
      if reached then
        loginfo "Goal reached before countdown ended. Loading next goal..." ;;;
        m <- get_self ;;
        set_goal_idx (py_succ (goal_idx m)) ;;;
        ret (Some Next_Goal)
      else
        loginfo (py_str countdown_s ++ "s left until skipping current goal.")%string ;;;
        rospy_sleep 1 ;;;
        wait_loop rest
  end.

(** [Mission.execute(userdata)]. *)
Definition execute : M Outcome :=
  m <- get_self ;;
  if py_ge (goal_idx m) (len (mission_data m)) then
    loginfo "No more goals left in this mission." ;;;
    set_goal_idx (PyInt 0) ;;;
    ret Completed
  else
    selected <- lift (current_goal m) ;;
    let '(current_goal_name, goal) := selected in
    setGoal (x_m goal) (y_m goal) (yaw_rad goal) ;;;
    loginfo ("Goal set: '" ++ current_goal_name ++ "'.")%string ;;;
    returned <- wait_loop 4 ;;
    match returned with
    | Some outcome => ret outcome
    | None =>
        logwarn "Countdown ended without reaching current goal." ;;;
        m' <- get_self ;;
        if py_eq (goal_idx m') 0 then
          logwarn "Starting goal of mission unreachable. Aborting mission..." ;;;
          set_goal_idx (PyFloat 0%float) ;;;
          ret Aborted
        else
          logwarn "Skipping current goal..." ;;;
          m'' <- get_self ;;
          set_goal_idx (py_succ (goal_idx m'')) ;;;
          ret Next_Goal
    end.

(** Successive activations by the surrounding state machine, as long as
    none raises: the outcomes, and the world after the last one. *)
Fixpoint activations (n : nat) (w : World) : list (Result Outcome) * World :=
  match n with
  | O => ([], w)
  | S n' =>
      match execute w with
      | (Ok o, w') => let '(os, w'') := activations n' w' in (Ok o :: os, w'')
      | (Raise e, w') => ([Raise e], w')
      end
  end.

(** *** The state seen by the checks of one activation *)

(** The state after the callbacks of one batch. *)
Definition absorb (batch : list PoseStamped) (m : Mission) : Mission :=
  fold_left (fun m' msg => received msg m') batch m.

(** The state at the check that follows [k] sleeps. *)
Fixpoint absorb_n (k : nat) (ib : list (list PoseStamped)) (m : Mission) : Mission :=
  match k with
  | O => m
  | S k' => absorb_n k' (tl ib) (absorb (hd [] ib) m)
  end.

(** The number of sleeps before the first check that succeeds, among the
    [c] checks of the countdown. *)
Fixpoint first_hit (c : nat) (ib : list (list PoseStamped)) (m : Mission) : option nat :=
  match c with
  | O => None
  | S c' =>
      if arrived m then Some O
      else option_map S (first_hit c' (tl ib) (absorb (hd [] ib) m))
  end.

(** What the wait loop leaves behind, by the first check that succeeds. *)
Definition loop_state (c : nat) (ib : list (list PoseStamped)) (m : Mission) : Mission :=
  match first_hit c ib m with
  | Some k => bump (absorb_n k ib m)
  | None => absorb_n c ib m
  end.

Definition loop_effects (c : nat) (ib : list (list PoseStamped)) (m : Mission) : list Event :=
  match first_hit c ib m with
  | Some k => ticks k ++ [Checked true]
  | None => ticks c
  end.

(** Lines 77 to 85 of [execute]: the outcome and the state once the
    countdown ran out in state [m]. *)
Definition settle (m : Mission) : Outcome * Mission :=
  if py_eq (goal_idx m) 0 then (Aborted, with_goal_idx (PyFloat 0%float) m)
  else (Next_Goal, bump m).

(** The outcome and the state of an activation that published a goal and
    entered the wait loop in state [m] with the feedback [ib] to come. *)
Definition attempt (ib : list (list PoseStamped)) (m : Mission) : Outcome * Mission :=
  match first_hit 4 ib m with
  | Some k => (Next_Goal, bump (absorb_n k ib m))
  | None => settle (absorb_n 4 ib m)
  end.

(** The four ways an activation can go from world [w]: its result and
    the world it leaves. *)
Inductive activation (w : World) : Result Outcome -> World -> Prop :=
| act_completed (w' : World) :
    py_ge (goal_idx (self w)) (len (mission_data (self w))) = true ->
    self w' = with_goal_idx (PyInt 0) (self w) ->
    effects (trace (ros w')) = effects (trace (ros w)) ->
    activation w (Ok Completed) w'
| act_raised (e : Exn) :
    py_ge (goal_idx (self w)) (len (mission_data (self w))) = false ->
    current_goal (self w) = Raise e ->
    activation w (Raise e) w
| act_arrived (name : string) (g : Goal) (n : nat) (w' : World) :
    selects (self w) name g ->
    first_hit 4 (inbox (ros w)) (with_goal g (self w)) = Some n ->
    self w' = bump (absorb_n n (inbox (ros w)) (with_goal g (self w))) ->
    sleeps (trace (ros w')) = (sleeps (trace (ros w)) + n)%nat ->
    checks (trace (ros w')) = (checks (trace (ros w)) + S n)%nat ->
    publishes (trace (ros w')) = (publishes (trace (ros w)) + 1)%nat ->
    activation w (Ok Next_Goal) w'
| act_timed_out (name : string) (g : Goal) (o : Outcome) (w' : World) :
    selects (self w) name g ->
    first_hit 4 (inbox (ros w)) (with_goal g (self w)) = None ->
    self w' = snd (settle (absorb_n 4 (inbox (ros w)) (with_goal g (self w)))) ->
    sleeps (trace (ros w')) = (sleeps (trace (ros w)) + 4)%nat ->
    checks (trace (ros w')) = (checks (trace (ros w)) + 4)%nat ->
    publishes (trace (ros w')) = (publishes (trace (ros w)) + 1)%nat ->
    o = fst (settle (absorb_n 4 (inbox (ros w)) (with_goal g (self w)))) ->
    activation w (Ok o) w'.

(** *** Further readings of the state and the trace *)

(** A binary64 number that is neither a NaN nor an infinity, on its
    decoded form. *)
Definition SF_is_finite (x : spec_float) : bool :=
  match x with
  | S754_zero _ | S754_finite _ _ _ => true
  | S754_nan | S754_infinity _ => false
  end.

(** The three numbers of a pose are finite. *)
Definition finite_pose (p : float * float * float) : bool :=
  let '(x, y, yaw) := p in
  is_finite x && is_finite y && is_finite yaw.

(** The pose that [poseCallback] stores for a message. *)
Definition pose_in (pose_stamped_msg : PoseStamped) : float * float * float :=
  (point_x (position pose_stamped_msg), point_y (position pose_stamped_msg),
   snd (euler_from_quaternion (orientation pose_stamped_msg))).

(** The line that the bare [except] of [reachedGoalWithTolerance] logs. *)
Definition no_pose_warning : Event :=
  Log Warn "No estimated base pose received yet.".

(** What the arrival check reads of the state: the active goal, the
    estimate and the two tolerances. *)
Definition check_view (m : Mission) :
    (option float * option float * option float)
    * (option float * option float * option float) * (float * float) :=
  ((goal_x_m m, goal_y_m m, goal_yaw_rad m),
   (estimated_x_m m, estimated_y_m m, estimated_yaw_rad m),
   (distance_to_goal_tolerance_m m, angle_to_goal_tolerance_rad m)).

(** A stand-in for the [pow] of the C library on examples, which call it
    with the exponent 2 only: the rounded product, and no [errno]. *)
Definition product_pow (x y : float) : float * Z := ((x * x)%float, 0).

(** ** Floating-point facts behind the arrival check *)

Lemma SFleb_nan (t : spec_float) : SFleb S754_nan t = false.
Proof. reflexivity. Qed.

Lemma SFleb_pinf (t : spec_float) :
  t <> S754_infinity false -> SFleb (S754_infinity false) t = false.
Proof. destruct t as [s| [|]| |s m e]; cbn; congruence. Qed.

(** ** The trace *)

Lemma effects_app (a b : list Event) : effects (a ++ b) = effects a ++ effects b.
Proof. apply filter_app. Qed.

Lemma sleeps_app (a b : list Event) : sleeps (a ++ b) = (sleeps a + sleeps b)%nat.
Proof. unfold sleeps. now rewrite filter_app, length_app. Qed.

Lemma checks_app (a b : list Event) : checks (a ++ b) = (checks a + checks b)%nat.
Proof. unfold checks. now rewrite filter_app, length_app. Qed.

Lemma publishes_app (a b : list Event) :
  publishes (a ++ b) = (publishes a + publishes b)%nat.
Proof. unfold publishes. now rewrite filter_app, length_app. Qed.

Lemma sleeps_effects (tr : list Event) : sleeps (effects tr) = sleeps tr.
Proof.
  unfold sleeps, effects.
  induction tr as [|[s msg|msg|secs|b] tr IH]; cbn; auto.
Qed.

Lemma checks_effects (tr : list Event) : checks (effects tr) = checks tr.
Proof.
  unfold checks, effects.
  induction tr as [|[s msg|msg|secs|b] tr IH]; cbn; auto.
Qed.

Lemma publishes_effects (tr : list Event) : publishes (effects tr) = publishes tr.
Proof.
  unfold publishes, effects.
  induction tr as [|[s msg|msg|secs|b] tr IH]; cbn; auto.
Qed.

Lemma sleeps_ticks (n : nat) : sleeps (ticks n) = n.
Proof. induction n as [|n IH]; cbn; auto. Qed.

Lemma checks_ticks (n : nat) : checks (ticks n) = n.
Proof. induction n as [|n IH]; cbn; auto. Qed.

Lemma publishes_ticks (n : nat) : publishes (ticks n) = O.
Proof. induction n as [|n IH]; cbn; auto. Qed.

(** ** The methods, one by one *)

Lemma reachedGoalWithTolerance_run (w : World) :
  exists w',
    reachedGoalWithTolerance w = (Ok (arrived (self w)), w')
    /\ leaves w w' (self w) [] (inbox (ros w)).
Proof.
  destruct w as [m r].
  unfold reachedGoalWithTolerance, arrived, active_goal, estimate, code_check,
    try_except, bind, getattr, lift, get_self, ret, logwarn, emit, leaves.
  cbn [self ros].
  repeat
    (match goal with
     | |- context [match ?f m with Some _ => _ | None => _ end] =>
         destruct (f m); cbn [self ros]
     | |- context [match py_pow2 ?x with Ok _ => _ | Raise _ => _ end] =>
         destruct (py_pow2 x); cbn [self ros]
     | |- context [match math_sqrt ?x with Ok _ => _ | Raise _ => _ end] =>
         destruct (math_sqrt x); cbn [self ros]
     end);
    eexists; (split; [reflexivity|]); cbn [self ros trace inbox];
    rewrite ?effects_app, ?app_nil_r; auto.
Qed.

Lemma poseCallback_run (msg : PoseStamped) (w : World) :
  exists w',
    poseCallback msg w = (Ok tt, w')
    /\ leaves w w' (received msg (self w)) [] (inbox (ros w)).
Proof.
  destruct w as [m [tr ib t once]].
  unfold poseCallback, loginfo_once, bind, get_self, put_self, leaves.
  cbn [self ros logged_once].
  destruct once; eexists; (split; [reflexivity|]); cbn [self ros trace inbox];
    rewrite ?effects_app, ?app_nil_r; auto.
Qed.

Lemma deliver_run (batch : list PoseStamped) (w : World) :
  exists w',
    deliver batch w = (Ok tt, w')
    /\ leaves w w' (absorb batch (self w)) [] (inbox (ros w)).
Proof.
  revert w. induction batch as [|msg rest IH]; intros w.
  - exists w. unfold leaves. cbn. now rewrite app_nil_r.
  - destruct (poseCallback_run msg w) as (w1 & E1 & S1 & T1 & I1).
    destruct (IH w1) as (w2 & E2 & S2 & T2 & I2).
    exists w2. cbn [deliver]. unfold bind. rewrite E1, E2.
    unfold leaves. rewrite S2, T2, I2, S1, T1, I1.
    repeat split; try reflexivity. now rewrite !app_nil_r.
Qed.

Lemma rospy_sleep_run (secs : Z) (w : World) :
  exists w',
    rospy_sleep secs w = (Ok tt, w')
    /\ leaves w w' (absorb (hd [] (inbox (ros w))) (self w)) [Sleep secs]
         (tl (inbox (ros w))).
Proof.
  unfold rospy_sleep.
  match goal with |- context [deliver ?b ?w1] =>
    destruct (deliver_run b w1) as (w2 & E & S & T & I) end.
  exists w2. split; [exact E|]. unfold leaves.
  rewrite S, T, I. cbn [self ros trace inbox].
  rewrite effects_app, app_nil_r. auto.
Qed.

Lemma wait_loop_run (c : nat) (w : World) :
  exists w',
    wait_loop c w
    = (Ok (option_map (fun _ => Next_Goal) (first_hit c (inbox (ros w)) (self w))), w')
    /\ self w' = loop_state c (inbox (ros w)) (self w)
    /\ effects (trace (ros w'))
       = effects (trace (ros w)) ++ loop_effects c (inbox (ros w)) (self w).
Proof.
  revert w. induction c as [|c IH]; intros w.
  - exists w. cbn. now rewrite app_nil_r.
  - destruct (reachedGoalWithTolerance_run w) as (w1 & E1 & S1 & T1 & I1).
    cbn [wait_loop]. unfold bind at 1. rewrite E1.
    unfold loop_state, loop_effects. cbn [first_hit].
    destruct (arrived (self w)) eqn:Ha.
    + destruct w1 as [m1 r1]. cbn [self ros] in *. subst m1.
      eexists. split; [reflexivity|].
      cbn [self ros trace option_map absorb_n ticks app].
      rewrite !effects_app, T1. cbn. rewrite !app_nil_r. split; reflexivity.
    + unfold bind at 1. unfold emit at 1.
      unfold bind at 1. unfold loginfo at 1. unfold emit at 1.
      cbn [self ros trace inbox rostime logged_once].
      match goal with |- context [bind (rospy_sleep 1) _ ?w2] =>
        destruct (rospy_sleep_run 1 w2) as (w3 & E3 & S3 & T3 & I3) end.
      unfold bind at 1. rewrite E3.
      destruct (IH w3) as (w4 & E4 & S4 & T4).
      exists w4. rewrite E4, S4, T4, S3, T3, I3.
      cbn [self ros trace inbox]. rewrite S1, I1, !effects_app, T1.
      unfold loop_state, loop_effects.
      destruct (first_hit c (tl (inbox (ros w)))
                  (absorb (hd [] (inbox (ros w))) (self w))) as [k|];
        cbn [option_map absorb_n]; rewrite <- ?app_assoc; cbn; auto.
Qed.

(** ** One activation *)

Lemma execute_completed (w : World) :
  py_ge (goal_idx (self w)) (len (mission_data (self w))) = true ->
  exists w',
    execute w = (Ok Completed, w')
    /\ self w' = with_goal_idx (PyInt 0) (self w)
    /\ effects (trace (ros w')) = effects (trace (ros w)).
Proof.
  intros H. unfold execute, bind, get_self. rewrite H.
  eexists. split; [reflexivity|]. cbn. rewrite effects_app. cbn.
  now rewrite app_nil_r.
Qed.

Lemma execute_raises (w : World) (e : Exn) :
  py_ge (goal_idx (self w)) (len (mission_data (self w))) = false ->
  current_goal (self w) = Raise e ->
  execute w = (Raise e, w).
Proof.
  intros H He. unfold execute, bind, get_self, lift. now rewrite H, He.
Qed.

Lemma execute_attempt (w : World) (name : string) (g : Goal) :
  py_ge (goal_idx (self w)) (len (mission_data (self w))) = false ->
  current_goal (self w) = Ok (name, g) ->
  exists w',
    execute w = (Ok (fst (attempt (inbox (ros w)) (with_goal g (self w)))), w')
    /\ self w' = snd (attempt (inbox (ros w)) (with_goal g (self w)))
    /\ effects (trace (ros w'))
       = effects (trace (ros w))
         ++ Publish (goal_message (rostime (ros w)) (x_m g) (y_m g) (yaw_rad g))
         :: loop_effects 4 (inbox (ros w)) (with_goal g (self w)).
Proof.
  intros H Hg. unfold execute. unfold bind at 1. unfold get_self at 1.
  rewrite H. unfold bind at 1. unfold lift at 1. rewrite Hg.
  unfold bind at 1. unfold setGoal, get_rostime, bind at 1.
  unfold bind at 1. unfold bind at 1. unfold emit at 1. unfold set_goal_pose.
  unfold bind at 1. unfold loginfo at 1. unfold emit at 1.
  cbn [self ros trace inbox rostime logged_once fst snd].
  match goal with |- context [bind (wait_loop 4) _ ?w2] =>
    destruct (wait_loop_run 4 w2) as (w3 & E3 & S3 & T3) end.
  cbn [self ros trace inbox] in E3, S3, T3.
  unfold bind at 1. rewrite E3.
  fold (with_goal g (self w)) in S3, T3 |- *.
  unfold attempt, loop_state in *.
  rewrite !effects_app in T3. cbn [effects filter is_effect app] in T3.
  rewrite app_nil_r in T3.
  destruct (first_hit 4 (inbox (ros w)) (with_goal g (self w))) as [k|];
    cbn [option_map fst snd].
  - exists w3. unfold ret. repeat split; auto.
    rewrite T3, <- app_assoc. reflexivity.
  - destruct w3 as [m3 r3]. cbn [self ros] in *. subst m3.
    unfold settle, bind, logwarn, emit, get_self, set_goal_idx, ret, bump.
    cbn [self ros trace].
    destruct (py_eq (goal_idx (absorb_n 4 (inbox (ros w)) (with_goal g (self w)))) 0);
      eexists; (split; [reflexivity|]); cbn [self ros trace fst snd];
      (split; [reflexivity|]);
      rewrite !effects_app, T3, <- !app_assoc; cbn; now rewrite !app_nil_r.
Qed.

(** ** What the callbacks leave alone *)

Lemma received_with_goal_pose (msg : PoseStamped) (x y yaw : float) (m : Mission) :
  received msg (with_goal_pose x y yaw m) = with_goal_pose x y yaw (received msg m).
Proof.
  unfold received. destruct (euler_from_quaternion (orientation msg)) as [[r p] yaw'].
  reflexivity.
Qed.

Lemma received_sequencer_state (msg : PoseStamped) (m : Mission) :
  sequencer_state (received msg m) = sequencer_state m.
Proof.
  unfold received. destruct (euler_from_quaternion (orientation msg)) as [[r p] yaw].
  reflexivity.
Qed.

Lemma absorb_sequencer_state (batch : list PoseStamped) (m : Mission) :
  sequencer_state (absorb batch m) = sequencer_state m.
Proof.
  revert m. induction batch as [|msg rest IH]; intros m; cbn; auto.
  unfold absorb in IH. rewrite IH. apply received_sequencer_state.
Qed.

Lemma absorb_with_goal_pose (batch : list PoseStamped) (x y yaw : float) (m : Mission) :
  absorb batch (with_goal_pose x y yaw m) = with_goal_pose x y yaw (absorb batch m).
Proof.
  revert m. induction batch as [|msg rest IH]; intros m; cbn; auto.
  rewrite received_with_goal_pose. apply IH.
Qed.

Lemma absorb_n_sequencer_state (k : nat) (ib : list (list PoseStamped)) (m : Mission) :
  sequencer_state (absorb_n k ib m) = sequencer_state m.
Proof.
  revert ib m. induction k as [|k IH]; intros ib m; cbn; auto.
  rewrite IH. apply absorb_sequencer_state.
Qed.

Lemma absorb_n_with_goal (k : nat) (ib : list (list PoseStamped)) (g : Goal) (m : Mission) :
  absorb_n k ib (with_goal g m) = with_goal g (absorb_n k ib m).
Proof.
  revert ib m. induction k as [|k IH]; intros ib m; cbn; auto.
  unfold with_goal in *. rewrite absorb_with_goal_pose. apply IH.
Qed.

Lemma sequencer_state_inv (m m' : Mission) :
  sequencer_state m' = sequencer_state m ->
  mission_data m' = mission_data m
  /\ goal_idx m' = goal_idx m
  /\ distance_to_goal_tolerance_m m' = distance_to_goal_tolerance_m m
  /\ angle_to_goal_tolerance_rad m' = angle_to_goal_tolerance_rad m
  /\ active_goal m' = active_goal m.
Proof.
  unfold sequencer_state, active_goal. intros H. injection H as -> -> -> -> -> -> ->.
  auto.
Qed.

Lemma absorb_n_empty (k : nat) (ib : list (list PoseStamped)) (m : Mission) :
  Forall (fun batch => batch = []) ib -> absorb_n k ib m = m.
Proof.
  revert ib m. induction k as [|k IH]; intros ib m H; cbn; auto.
  destruct H as [|b ib' Hb H']; cbn.
  - apply IH. constructor.
  - subst b. cbn. apply IH, H'.
Qed.

(** ** The first check that succeeds *)

Lemma first_hit_some (c : nat) (ib : list (list PoseStamped)) (m : Mission) (k : nat) :
  first_hit c ib m = Some k ->
  (k < c)%nat
  /\ arrived (absorb_n k ib m) = true
  /\ forall j, (j < k)%nat -> arrived (absorb_n j ib m) = false.
Proof.
  revert ib m k. induction c as [|c IH]; intros ib m k; cbn [first_hit].
  - discriminate.
  - destruct (arrived m) eqn:Ha.
    + intros [= <-]. repeat split; [lia | exact Ha | intros j Hj; lia].
    + destruct (first_hit c (tl ib) (absorb (hd [] ib) m)) as [k'|] eqn:Hf;
        cbn; [|discriminate].
      intros [= <-]. destruct (IH _ _ _ Hf) as (Hlt & Hk & Hj).
      repeat split; [lia | exact Hk |].
      intros [|j] Hlj; cbn; [exact Ha | apply Hj; lia].
Qed.

Lemma first_hit_none (c : nat) (ib : list (list PoseStamped)) (m : Mission) :
  (forall k, (k < c)%nat -> arrived (absorb_n k ib m) = false) ->
  first_hit c ib m = None.
Proof.
  revert ib m. induction c as [|c IH]; intros ib m H; cbn [first_hit]; auto.
  assert (Ha : arrived m = false) by (apply (H O); lia).
  rewrite Ha, IH; auto.
  intros k Hk. apply (H (S k)). lia.
Qed.

(** ** Selecting the goal *)

(** In Python 3 line 61 raises for every index: no goal is ever selected. *)
Lemma selects_never (m : Mission) (name : string) (g : Goal) :
  selects m name g -> False.
Proof. intros [_ Hg]. unfold current_goal, view_getitem in Hg. discriminate. Qed.

Lemma goal_idx_at_tick (m : Mission) (g : Goal) (n : nat)
    (ib : list (list PoseStamped)) :
  goal_idx (absorb_n n ib (with_goal g m)) = goal_idx m.
Proof.
  destruct (sequencer_state_inv _ _ (absorb_n_sequencer_state n ib (with_goal g m)))
    as (_ & H & _).
  exact H.
Qed.

(** ** The two ways through the wait loop *)

(** Some check succeeds: the one after [n] sleeps is the first. *)
Lemma execute_hit (w : World) (name : string) (g : Goal) (n : nat) :
  selects (self w) name g ->
  first_hit 4 (inbox (ros w)) (with_goal g (self w)) = Some n ->
  exists w',
    execute w = (Ok Next_Goal, w')
    /\ self w' = bump (absorb_n n (inbox (ros w)) (with_goal g (self w)))
    /\ sleeps (trace (ros w')) = (sleeps (trace (ros w)) + n)%nat
    /\ checks (trace (ros w')) = (checks (trace (ros w)) + S n)%nat
    /\ publishes (trace (ros w')) = (publishes (trace (ros w)) + 1)%nat.
Proof.
  intros [Hge Hg] Hf.
  destruct (execute_attempt w name g Hge Hg) as (w' & E & Hs & T).
  unfold attempt, loop_effects in *. rewrite Hf in *. cbn [fst snd] in *.
  exists w'. repeat split; auto.
  - rewrite <- sleeps_effects, T, sleeps_app, sleeps_effects.
    change (sleeps (Publish ?m :: ?l)) with (sleeps l).
    rewrite sleeps_app, sleeps_ticks. cbn. lia.
  - rewrite <- checks_effects, T, checks_app, checks_effects.
    change (checks (Publish ?m :: ?l)) with (checks l).
    rewrite checks_app, checks_ticks. cbn. lia.
  - rewrite <- publishes_effects, T, publishes_app, publishes_effects.
    change (publishes (Publish ?m :: ?l)) with (S (publishes l)).
    rewrite publishes_app, publishes_ticks. cbn. lia.
Qed.

(** No check succeeds: the countdown runs out. *)
Lemma execute_miss (w : World) (name : string) (g : Goal) :
  selects (self w) name g ->
  first_hit 4 (inbox (ros w)) (with_goal g (self w)) = None ->
  exists w',
    execute w
    = (Ok (fst (settle (absorb_n 4 (inbox (ros w)) (with_goal g (self w))))), w')
    /\ self w' = snd (settle (absorb_n 4 (inbox (ros w)) (with_goal g (self w))))
    /\ sleeps (trace (ros w')) = (sleeps (trace (ros w)) + 4)%nat
    /\ checks (trace (ros w')) = (checks (trace (ros w)) + 4)%nat
    /\ publishes (trace (ros w')) = (publishes (trace (ros w)) + 1)%nat.
Proof.
  intros [Hge Hg] Hf.
  destruct (execute_attempt w name g Hge Hg) as (w' & E & Hs & T).
  unfold attempt, loop_effects in *. rewrite Hf in *.
  exists w'. repeat split; auto.
  - rewrite <- sleeps_effects, T, sleeps_app, sleeps_effects. reflexivity.
  - rewrite <- checks_effects, T, checks_app, checks_effects. reflexivity.
  - rewrite <- publishes_effects, T, publishes_app, publishes_effects. reflexivity.
Qed.

Lemma arrived_without_estimate (m : Mission) : estimate m = None -> arrived m = false.
Proof. intros H. unfold arrived. rewrite H. now destruct (active_goal m). Qed.

Lemma estimate_with_goal (g : Goal) (m : Mission) :
  estimate (with_goal g m) = estimate m.
Proof. reflexivity. Qed.

(** Every run of [execute] is one of the four activations. *)
Lemma execute_activation (w : World) (r : Result Outcome) (w' : World) :
  execute w = (r, w') -> activation w r w'.
Proof.
  intros E.
  destruct (py_ge (goal_idx (self w)) (len (mission_data (self w)))) eqn:Hge.
  { destruct (execute_completed w Hge) as (w1 & E1 & Hs & T).
    rewrite E in E1. injection E1 as -> ->. now apply act_completed. }
  destruct (current_goal (self w)) as [[name g]|ex] eqn:Hg.
  2:{ rewrite (execute_raises w ex Hge Hg) in E. injection E as <- <-.
      now apply act_raised. }
  destruct (first_hit 4 (inbox (ros w)) (with_goal g (self w))) as [n|] eqn:Hf.
  - destruct (execute_hit w name g n (conj Hge Hg) Hf) as (w1 & E1 & H).
    rewrite E in E1. injection E1 as -> ->.
    destruct H as (Hs & Sl & Ch & Pu).
    exact (act_arrived w name g n w1 (conj Hge Hg) Hf Hs Sl Ch Pu).
  - destruct (execute_miss w name g (conj Hge Hg) Hf) as (w1 & E1 & H).
    rewrite E in E1. injection E1 as -> ->.
    destruct H as (Hs & Sl & Ch & Pu).
    exact (act_timed_out w name g _ w1 (conj Hge Hg) Hf Hs Sl Ch Pu eq_refl).
Qed.

Lemma len_nonneg (d : PyDict) : 0 <= len d.
Proof. unfold len, keys, view_len. lia. Qed.


(** ** Successive activations *)



(** ** Comparing an index with the goal count *)

Lemma py_ge_le_eq (a : PyNum) (n : Z) :
  py_le a n = true -> (py_ge a n = true <-> py_eq a n = true).
Proof.
  destruct a as [z|f]; cbn.
  - lia.
  - destruct (float_compare_Z f n) as [[| |]|]; intuition congruence.
Qed.

(** ** States that differ in the estimate only *)


(** ** The bound on one activation *)

Lemma execute_bounded (w : World) (r : Result Outcome) (w' : World) :
  execute w = (r, w') ->
  (checks (trace (ros w')) <= checks (trace (ros w)) + 4)%nat
  /\ (sleeps (trace (ros w')) <= sleeps (trace (ros w)) + 4)%nat.
Proof.
  intros E. apply execute_activation in E.
  inversion E as [ w1 Hge Hs T
                 | ex Hge Hg
                 | name g n w1 Hsel Hf Hs Sl Ch _
                 | name g o w1 Hsel Hf Hs Sl Ch _ Ho]; subst.
  - rewrite <- (checks_effects (trace (ros w'))), <- (sleeps_effects (trace (ros w'))), T.
    rewrite checks_effects, sleeps_effects. lia.
  - lia.
  - apply first_hit_some in Hf. lia.
  - lia.
Qed.


(** ** Below the goal count *)

(** With the index below the goal count, line 61 subscripts the view of
    the keys: the activation raises [TypeError] and nothing has happened. *)
Lemma execute_below_count (w : World) :
  py_ge (goal_idx (self w)) (len (mission_data (self w))) = false ->
  execute w = (Raise TypeError, w).
Proof. intros Hge. now apply execute_raises. Qed.

Lemma execute_not_aborted (w w' : World) : execute w <> (Ok Aborted, w').
Proof.
  intros E.
  destruct (py_ge (goal_idx (self w)) (len (mission_data (self w)))) eqn:Hge.
  - destruct (execute_completed w Hge) as (w1 & E1 & _). congruence.
  - rewrite (execute_below_count w Hge) in E. discriminate.
Qed.


(** ** What the checks of the loop read *)

Lemma arrived_check_view (a b : Mission) :
  check_view a = check_view b -> arrived a = arrived b.
Proof.
  unfold check_view, arrived, active_goal, estimate. intros H.
  injection H as Hgx Hgy Hgyaw Hex Hey Heyaw Htd Hta.
  now rewrite Hgx, Hgy, Hgyaw, Hex, Hey, Heyaw, Htd, Hta.
Qed.

Lemma received_check_view (msg : PoseStamped) (a b : Mission) :
  check_view a = check_view b ->
  check_view (received msg a) = check_view (received msg b).
Proof.
  unfold check_view, received. intros H.
  injection H as Hgx Hgy Hgyaw Hex Hey Heyaw Htd Hta.
  destruct (euler_from_quaternion (orientation msg)) as [[r p] yaw]. cbn.
  now rewrite Hgx, Hgy, Hgyaw, Htd, Hta.
Qed.

Lemma absorb_check_view (batch : list PoseStamped) (a b : Mission) :
  check_view a = check_view b ->
  check_view (absorb batch a) = check_view (absorb batch b).
Proof.
  revert a b. induction batch as [|msg rest IH]; intros a b H; cbn; auto.
  apply IH, received_check_view, H.
Qed.

Lemma first_hit_check_view (c : nat) (ib : list (list PoseStamped)) (a b : Mission) :
  check_view a = check_view b -> first_hit c ib a = first_hit c ib b.
Proof.
  revert ib a b. induction c as [|c IH]; intros ib a b H; cbn [first_hit]; auto.
  rewrite (arrived_check_view a b H).
  now rewrite (IH (tl ib) _ _ (absorb_check_view (hd [] ib) a b H)).
Qed.

Lemma setGoal_wait_loop_run (x y yaw : float) (c : nat) (w : World) :
  exists w',
    (setGoal x y yaw ;;; wait_loop c) w
    = (Ok (option_map (fun _ => Next_Goal)
             (first_hit c (inbox (ros w)) (with_goal_pose x y yaw (self w)))), w')
    /\ self w' = loop_state c (inbox (ros w)) (with_goal_pose x y yaw (self w))
    /\ effects (trace (ros w'))
       = effects (trace (ros w))
         ++ Publish (goal_message (rostime (ros w)) x y yaw)
         :: loop_effects c (inbox (ros w)) (with_goal_pose x y yaw (self w)).
Proof.
  unfold bind at 1. unfold setGoal, bind, get_rostime, emit, set_goal_pose.
  cbn [self ros trace inbox rostime logged_once fst snd].
  match goal with |- context [wait_loop c ?v] =>
    destruct (wait_loop_run c v) as (u & E & Hs & T) end.
  cbn [self ros trace inbox] in E, Hs, T.
  exists u. split; [exact E|]. split; [exact Hs|].
  rewrite T, effects_app. cbn [effects filter is_effect].
  now rewrite <- app_assoc.
Qed.

Lemma active_goal_loop_state (c : nat) (ib : list (list PoseStamped))
    (x y yaw : float) (m : Mission) :
  active_goal (loop_state c ib (with_goal_pose x y yaw m)) = Some (x, y, yaw).
Proof.
  unfold loop_state.
  destruct (first_hit c ib (with_goal_pose x y yaw m)) as [k|].
  - destruct (sequencer_state_inv _ _
                (absorb_n_sequencer_state k ib (with_goal_pose x y yaw m)))
      as (_ & _ & _ & _ & Ha).
    unfold bump. change (active_goal (with_goal_idx ?v ?a)) with (active_goal a).
    now rewrite Ha.
  - destruct (sequencer_state_inv _ _
                (absorb_n_sequencer_state c ib (with_goal_pose x y yaw m)))
      as (_ & _ & _ & _ & Ha).
    now rewrite Ha.
Qed.

Lemma loop_effects_check_view (c : nat) (ib : list (list PoseStamped)) (a b : Mission) :
  check_view a = check_view b -> loop_effects c ib a = loop_effects c ib b.
Proof.
  intros H. unfold loop_effects. now rewrite (first_hit_check_view c ib a b H).
Qed.

(** * The properties of [execute] *)

(** C1. Arrival detection, at the input of the claim. A new [Mission] on
    [G0] at the origin and [G1], with the robot reported at the origin before
    the activation: the index 0 is below the goal count, an estimate is
    stored, and against [G0] as active goal the check answers [True]. Yet
    [execute] raises [TypeError] at line 61, where it subscripts the view of
    the keys: it returns no outcome and leaves the index and the rest of the
    world as they were. *)
Theorem arrival_is_not_reached :
  let w := mkWorld (set_estimated 0 0 0 (Mission_init two_goals))
             (mkRos [] [] (0, 0) false) in
  py_ge (goal_idx (self w)) (len (mission_data (self w))) = false
  /\ estimate (self w) = Some (0, 0, 0)%float
  /\ fst (reachedGoalWithTolerance
            (mkWorld (with_goal (mkGoal 0 0 0) (self w)) (ros w))) = Ok true
  /\ execute w = (Raise TypeError, w).
Proof. cbv zeta. repeat split. Qed.

(** C2. First-goal abort, at the input of the claim. A new [Mission] on two
    goals that never receives a pose, at index 0: [execute] raises
    [TypeError] at line 61 without a sleep; and no activation, from any
    state, returns ['Aborted']. *)
Theorem first_goal_is_not_aborted :
  let w := fresh two_goals [] in
  goal_idx (self w) = PyInt 0
  /\ estimate (self w) = None
  /\ execute w = (Raise TypeError, w)
  /\ forall v v', execute v <> (Ok Aborted, v').
Proof. cbv zeta. repeat split. exact execute_not_aborted. Qed.



(** C5. The index invariant. If the goal index lies in [[0, goalCount]]
    before an activation, it does so afterwards, and the goal list is the
    same. The index moves up by one exactly on ['Next Goal'], which needs an
    index below the goal count; ['Aborted'] leaves it at 0; an exception
    leaves the world as it was; ['Completed'] sets it to 0 and is returned
    exactly when the index equals the goal count. *)
Theorem index_invariant (w : World) (r : Result Outcome) (w' : World) :
  index_in_range (self w) ->
  execute w = (r, w') ->
  index_in_range (self w')
  /\ mission_data (self w') = mission_data (self w)
  /\ (r = Ok Next_Goal ->
      py_ge (goal_idx (self w)) (len (mission_data (self w))) = false
      /\ goal_idx (self w') = py_succ (goal_idx (self w)))
  /\ (r = Ok Aborted ->
      py_eq (goal_idx (self w)) 0 = true /\ py_eq (goal_idx (self w')) 0 = true)
  /\ (forall e, r = Raise e -> w' = w)
  /\ (r = Ok Completed -> goal_idx (self w') = PyInt 0)
  /\ (r = Ok Completed <->
      py_eq (goal_idx (self w)) (len (mission_data (self w))) = true).
Proof.
  intros [Hlo Hhi] E. apply execute_activation in E.
  pose proof (len_nonneg (mission_data (self w))) as Hlen.
  pose proof (py_ge_le_eq _ _ Hhi) as Heq.
  inversion E as [ w1 Hge Hs _
                 | ex Hge Hg
                 | name g n w1 Hsel Hf Hs _ _ _
                 | name g o w1 Hsel Hf Hs _ _ _ Ho]; subst.
  - rewrite Hs. cbn [with_goal_idx goal_idx mission_data].
    unfold index_in_range. cbn [with_goal_idx goal_idx mission_data py_ge py_le].
    repeat split; try discriminate; try tauto; try lia.
  - unfold index_in_range.
    repeat split; try discriminate; try tauto.
    intros H. apply Heq in H. congruence.
  - destruct (selects_never _ _ _ Hsel).
  - destruct (selects_never _ _ _ Hsel).
Qed.

(** C6. Missing feedback, at the input of the claim. In any state without
    a pose estimate the arrival check answers [False] and raises nothing.
    But neither an activation that never receives a pose nor one whose
    feedback is three metres off gets to the countdown: both raise
    [TypeError] at line 61 and sleep not once. *)
Theorem missing_feedback_is_not_counted_down :
  (forall v, estimate (self v) = None ->
     exists v', reachedGoalWithTolerance v = (Ok false, v') /\ self v' = self v)
  /\ (let w1 := fresh two_goals [] in
      let w2 := fresh two_goals [[pose_msg 3 3 0]] in
      execute w1 = (Raise TypeError, w1)
      /\ execute w2 = (Raise TypeError, w2)
      /\ sleeps (trace (ros (snd (execute w1)))) = O
      /\ sleeps (trace (ros (snd (execute w2)))) = O).
Proof.
  split.
  - intros v Hv. destruct (reachedGoalWithTolerance_run v) as (v' & E & Hs & _).
    exists v'. rewrite E, (arrived_without_estimate _ Hv). auto.
  - cbv zeta. repeat split.
Qed.

(** C7. The bound on an activation, at a first activation. A new [Mission]
    on two goals: [execute] makes no arrival check, so the bound of four
    holds, but it returns none of the three outcomes: it raises [TypeError]
    at line 61, and so does every activation that follows. *)
Theorem activation_returns_no_outcome :
  let w := fresh two_goals [[pose_msg 0 0 0]] in
  execute w = (Raise TypeError, w)
  /\ checks (trace (ros (snd (execute w)))) = O
  /\ forall n, activations (S n) w = ([Raise TypeError], w).
Proof. cbv zeta. repeat split. Qed.

(** C8. The active-goal snapshot. (1) [setGoal(x, y, yaw)] publishes one
    message, with the position [(x, y, 0)] and the rotation of [yaw], and
    leaves [(x, y, yaw)] as the active goal. (2) The arrival check compares
    the estimate with the active goal: its answer is a function of these two
    and of the tolerances. (3) The checks of the wait loop that follows
    [setGoal(x, y, yaw)] are made against [(x, y, yaw)]: from two worlds with
    the same estimate, tolerances, feedback to come and clock, and with any
    goal lists, goal indices and earlier active goals, they give the same
    result and the same messages, checks and sleeps, and the active goal is
    [(x, y, yaw)] at the end. (4) [execute] itself makes no check and
    records no goal: it never gets past line 61 to [setGoal]. *)
Theorem active_goal_snapshot :
  (forall x y yaw w,
     exists w' msg,
       setGoal x y yaw w = (Ok tt, w')
       /\ trace (ros w') = trace (ros w) ++ [Publish msg]
       /\ position msg = mkPoint x y 0%float
       /\ orientation msg = quaternion_from_euler 0%float 0%float yaw
       /\ active_goal (self w') = Some (x, y, yaw))
  /\ (forall v g e,
        active_goal (self v) = Some g ->
        estimate (self v) = Some e ->
        fst (reachedGoalWithTolerance v)
        = Ok (code_check (distance_to_goal_tolerance_m (self v))
                (angle_to_goal_tolerance_rad (self v)) g e))
  /\ (forall x y yaw c w1 w2,
        feedback_state (self w1) = feedback_state (self w2) ->
        distance_to_goal_tolerance_m (self w1) = distance_to_goal_tolerance_m (self w2) ->
        angle_to_goal_tolerance_rad (self w1) = angle_to_goal_tolerance_rad (self w2) ->
        inbox (ros w1) = inbox (ros w2) ->
        rostime (ros w1) = rostime (ros w2) ->
        exists res evs w1' w2',
          (setGoal x y yaw ;;; wait_loop c) w1 = (res, w1')
          /\ (setGoal x y yaw ;;; wait_loop c) w2 = (res, w2')
          /\ effects (trace (ros w1')) = effects (trace (ros w1)) ++ evs
          /\ effects (trace (ros w2')) = effects (trace (ros w2)) ++ evs
          /\ active_goal (self w1') = Some (x, y, yaw)
          /\ active_goal (self w2') = Some (x, y, yaw))
  /\ (forall w r w',
        execute w = (r, w') ->
        active_goal (self w') = active_goal (self w)
        /\ checks (trace (ros w')) = checks (trace (ros w))
        /\ publishes (trace (ros w')) = publishes (trace (ros w))).
Proof.
  split; [|split; [|split]].
  - intros x y yaw w. unfold setGoal, bind, get_rostime, emit, set_goal_pose.
    do 2 eexists. split; [reflexivity|]. cbn. auto.
  - intros v g e Hg He.
    destruct (reachedGoalWithTolerance_run v) as (v' & E & _).
    rewrite E. unfold arrived. now rewrite Hg, He.
  - intros x y yaw c w1 w2 Hf Htd Hta Hib Ht.
    destruct (setGoal_wait_loop_run x y yaw c w1) as (u1 & E1 & S1 & T1).
    destruct (setGoal_wait_loop_run x y yaw c w2) as (u2 & E2 & S2 & T2).
    assert (Hv : check_view (with_goal_pose x y yaw (self w1))
                 = check_view (with_goal_pose x y yaw (self w2))).
    { unfold check_view, feedback_state in *. cbn.
      injection Hf as -> -> ->. now rewrite Htd, Hta. }
    rewrite Hib in E1, T1. rewrite Ht in T1.
    rewrite (first_hit_check_view c _ _ _ Hv) in E1.
    rewrite (loop_effects_check_view c _ _ _ Hv) in T1.
    eexists _, _, u1, u2.
    split; [exact E1|]. split; [exact E2|]. split; [exact T1|]. split; [exact T2|].
    rewrite S1, S2. split; apply active_goal_loop_state.
  - intros w r w' E.
    destruct (py_ge (goal_idx (self w)) (len (mission_data (self w)))) eqn:Hge.
    + destruct (execute_completed w Hge) as (w1 & E1 & Hs & T).
      rewrite E in E1. injection E1 as _ <-.
      rewrite Hs, <- (checks_effects (trace (ros w'))),
        <- (publishes_effects (trace (ros w'))), T, checks_effects, publishes_effects.
      auto.
    + rewrite (execute_below_count w Hge) in E. injection E as _ <-. auto.
Qed.

(** C9. The frame of [execute]. Whatever the result, the goal list and the
    two tolerances are as before; and the pose estimate is the one that the
    callbacks of the [n <= 4] sleeps of the activation left: [execute]
    itself assigns the goal index and the active goal only. *)
Theorem execute_frame (w : World) (r : Result Outcome) (w' : World) :
  execute w = (r, w') ->
  mission_data (self w') = mission_data (self w)
  /\ distance_to_goal_tolerance_m (self w') = distance_to_goal_tolerance_m (self w)
  /\ angle_to_goal_tolerance_rad (self w') = angle_to_goal_tolerance_rad (self w)
  /\ exists n,
       (n <= 4)%nat
       /\ sleeps (trace (ros w')) = (sleeps (trace (ros w)) + n)%nat
       /\ feedback_state (self w')
          = feedback_state (absorb_n n (inbox (ros w)) (self w)).
Proof.
  intros E. apply execute_activation in E.
  inversion E as [ w1 Hge Hs T
                 | ex Hge Hg
                 | name g n w1 Hsel Hf Hs Sl _ _
                 | name g o w1 Hsel Hf Hs Sl _ _ Ho]; subst.
  - rewrite Hs. repeat split. exists O. repeat split; [lia|].
    rewrite <- (sleeps_effects (trace (ros w'))), T, sleeps_effects. lia.
  - repeat split. exists O. repeat split; lia.
  - destruct (sequencer_state_inv _ _
                (absorb_n_sequencer_state n (inbox (ros w)) (with_goal g (self w))))
      as (Hd & _ & Htd & Hta & _).
    rewrite Hs. cbn [bump with_goal_idx mission_data distance_to_goal_tolerance_m
                       angle_to_goal_tolerance_rad].
    rewrite Hd, Htd, Hta. repeat split.
    exists n. apply first_hit_some in Hf. repeat split; [lia | exact Sl |].
    rewrite absorb_n_with_goal. reflexivity.
  - destruct (sequencer_state_inv _ _
                (absorb_n_sequencer_state 4 (inbox (ros w)) (with_goal g (self w))))
      as (Hd & _ & Htd & Hta & _).
    rewrite Hs. unfold settle.
    destruct (py_eq _ 0);
      cbn [snd bump with_goal_idx mission_data distance_to_goal_tolerance_m
             angle_to_goal_tolerance_rad];
      rewrite Hd, Htd, Hta; repeat split;
      exists 4%nat; (repeat split; [lia | exact Sl |]);
      rewrite absorb_n_with_goal; reflexivity.
Qed.



(** X1. What an activation does. With the goal index at or above the goal
    count, [execute] returns ['Completed'], sets the index to 0 and neither
    publishes, checks nor sleeps. With the index below the goal count it
    raises [TypeError] at line 61, where the view of the keys is subscripted,
    and leaves the world as it was: so does every activation that follows,
    and no goal of a mission is ever published. *)
Theorem activation_completes_or_raises (w : World) :
  (py_ge (goal_idx (self w)) (len (mission_data (self w))) = true
   /\ exists w',
        execute w = (Ok Completed, w')
        /\ goal_idx (self w') = PyInt 0
        /\ effects (trace (ros w')) = effects (trace (ros w)))
  \/ (py_ge (goal_idx (self w)) (len (mission_data (self w))) = false
      /\ execute w = (Raise TypeError, w)
      /\ forall n, activations (S n) w = ([Raise TypeError], w)).
Proof.
  destruct (py_ge (goal_idx (self w)) (len (mission_data (self w)))) eqn:Hge.
  - left. split; [reflexivity|].
    destruct (execute_completed w Hge) as (w' & E & Hs & T).
    exists w'. rewrite Hs. auto.
  - right. pose proof (execute_below_count w Hge) as E.
    repeat split; auto. intros n. cbn [activations]. now rewrite E.
Qed.
(** * Further properties of the class *)

(** ** Finite and other floats *)

Lemma is_finite_spec (x : float) : is_finite x = SF_is_finite (Prim2SF x).
Proof.
  unfold is_finite, is_nan, is_infinity.
  rewrite !FloatAxioms.eqb_spec, FloatAxioms.abs_spec.
  destruct (Prim2SF x) as [s| s| |s m e]; try (destruct s; reflexivity);
    try reflexivity.
  destruct s; cbn; rewrite Z.compare_refl, Pos.compare_cont_refl; reflexivity.
Qed.

Lemma sub_diag_finite (x : float) : is_finite x = true -> (x - x)%float = 0%float.
Proof.
  rewrite is_finite_spec. intros H. apply FloatAxioms.Prim2SF_inj.
  rewrite FloatAxioms.sub_spec. unfold FloatAxioms.SF64sub.
  change (Prim2SF 0) with (S754_zero false).
  destruct (Prim2SF x) as [s| s| |s m e]; try discriminate.
  - destruct s; reflexivity.
  - unfold SFsub. rewrite Z.sub_diag. reflexivity.
Qed.

Lemma sub_not_finite (a b : float) :
  is_finite a = false \/ is_finite b = false -> is_finite (a - b) = false.
Proof.
  rewrite !is_finite_spec, FloatAxioms.sub_spec. unfold FloatAxioms.SF64sub.
  intros [H | H].
  - destruct (Prim2SF a) as [s| s| |s m e]; try discriminate;
      destruct (Prim2SF b) as [s'| s'| |s' m' e']; try destruct s; try destruct s';
      reflexivity.
  - destruct (Prim2SF b) as [s'| s'| |s' m' e']; try discriminate;
      destruct (Prim2SF a) as [s| s| |s m e]; try destruct s; try destruct s';
      reflexivity.
Qed.

Lemma add_not_finite (a b : float) :
  is_finite a = false \/ is_finite b = false -> is_finite (a + b) = false.
Proof.
  rewrite !is_finite_spec, FloatAxioms.add_spec. unfold FloatAxioms.SF64add.
  intros [H | H].
  - destruct (Prim2SF a) as [s| s| |s m e]; try discriminate;
      destruct (Prim2SF b) as [s'| s'| |s' m' e']; try destruct s; try destruct s';
      reflexivity.
  - destruct (Prim2SF b) as [s'| s'| |s' m' e']; try discriminate;
      destruct (Prim2SF a) as [s| s| |s m e]; try destruct s; try destruct s';
      reflexivity.
Qed.

Lemma sqrt_not_finite_leb (x t : float) :
  Prim2SF t <> S754_infinity false ->
  is_finite x = false -> (sqrt x <=? t)%float = false.
Proof.
  rewrite is_finite_spec, FloatAxioms.leb_spec, FloatAxioms.sqrt_spec.
  unfold FloatAxioms.SF64sqrt. intros Ht H.
  destruct (Prim2SF x) as [s| [|]| |s m e]; try discriminate; cbn [SFsqrt];
    auto using SFleb_nan, SFleb_pinf.
Qed.

Lemma abs_not_finite_leb (x t : float) :
  Prim2SF t <> S754_infinity false ->
  is_finite x = false -> (abs x <=? t)%float = false.
Proof.
  rewrite is_finite_spec, FloatAxioms.leb_spec, FloatAxioms.abs_spec.
  intros Ht H.
  destruct (Prim2SF x) as [s| s| |s m e]; try discriminate; cbn [SFabs];
    auto using SFleb_nan, SFleb_pinf.
Qed.

Lemma abs_not_finite (x : float) : is_finite x = false -> is_finite (abs x) = false.
Proof.
  rewrite !is_finite_spec, FloatAxioms.abs_spec.
  destruct (Prim2SF x) as [s| s| |s m e]; try discriminate; reflexivity.
Qed.

(** [pow(x, 2)] of a NaN or an infinity is returned by [float_pow] itself,
    and is a NaN or an infinity. *)
Lemma py_pow2_not_finite (d : float) :
  is_finite d = false -> exists r, py_pow2 d = Ok r /\ is_finite r = false.
Proof.
  intros H. unfold py_pow2. destruct (is_nan d) eqn:Hn.
  - eauto.
  - destruct (is_infinity d) eqn:Hi.
    + exists (abs d). split; [reflexivity | now apply abs_not_finite].
    + unfold is_finite in H. rewrite Hn, Hi in H. discriminate.
Qed.

Lemma tolerances_finite :
  Prim2SF 0.3 <> S754_infinity false /\ Prim2SF 0.7 <> S754_infinity false.
Proof. split; intros H; vm_compute in H; discriminate. Qed.

(** A pose with a NaN or an infinity, on either side, fails the check
    for all tolerances other than [+infinity]. *)
Lemma code_check_not_finite (tol_d tol_a : float) (g e : float * float * float) :
  Prim2SF tol_d <> S754_infinity false ->
  Prim2SF tol_a <> S754_infinity false ->
  finite_pose g = false \/ finite_pose e = false ->
  code_check tol_d tol_a g e = false.
Proof.
  intros Hd Ha H. destruct g as [[gx gy] gyaw], e as [[ex ey] eyaw].
  unfold code_check, math_sqrt.
  assert (Hcases :
    (is_finite gx = false \/ is_finite ex = false)
    \/ (is_finite gy = false \/ is_finite ey = false)
    \/ (is_finite gyaw = false \/ is_finite eyaw = false)).
  { unfold finite_pose in H.
    destruct (is_finite gx), (is_finite gy), (is_finite gyaw),
      (is_finite ex), (is_finite ey), (is_finite eyaw); cbn in H;
      destruct H; try discriminate; auto. }
  destruct Hcases as [Hx | [Hy | Hyaw]].
  - destruct (py_pow2_not_finite _ (sub_not_finite gx ex Hx)) as (a & -> & Hfa).
    destruct (py_pow2 (gy - ey)) as [b|]; [|reflexivity].
    destruct (a + b <? 0)%float; [reflexivity|].
    rewrite sqrt_not_finite_leb; auto. apply add_not_finite. now left.
  - destruct (py_pow2 (gx - ex)) as [a|]; [|reflexivity].
    destruct (py_pow2_not_finite _ (sub_not_finite gy ey Hy)) as (b & -> & Hfb).
    destruct (a + b <? 0)%float; [reflexivity|].
    rewrite sqrt_not_finite_leb; auto. apply add_not_finite. now right.
  - destruct (py_pow2 (gx - ex)) as [a|]; [|reflexivity].
    destruct (py_pow2 (gy - ey)) as [b|]; [|reflexivity].
    destruct (a + b <? 0)%float; [reflexivity|].
    rewrite (abs_not_finite_leb _ _ Ha (sub_not_finite _ _ Hyaw)).
    apply andb_false_r.
Qed.

Lemma arrived_configured (m : Mission) (g e : float * float * float) :
  configured m -> active_goal m = Some g -> estimate m = Some e ->
  arrived m = code_check 0.3 0.7 g e.
Proof. intros [Hd Ha] Hg He. unfold arrived. now rewrite Hg, He, Hd, Ha. Qed.

(** ** The arrival check on its own *)

Lemma reachedGoalWithTolerance_trace (v : World) :
  exists v',
    reachedGoalWithTolerance v = (Ok (arrived (self v)), v')
    /\ self v' = self v
    /\ inbox (ros v') = inbox (ros v)
    /\ rostime (ros v') = rostime (ros v)
    /\ (trace (ros v') = trace (ros v)
        \/ (arrived (self v) = false
            /\ trace (ros v') = trace (ros v) ++ [no_pose_warning]))
    /\ (active_goal (self v) = None \/ estimate (self v) = None ->
        trace (ros v') = trace (ros v) ++ [no_pose_warning]).
Proof.
  destruct v as [m [tr ib t once]].
  unfold reachedGoalWithTolerance, arrived, active_goal, estimate, code_check,
    try_except, bind, getattr, lift, get_self, ret, logwarn, emit, no_pose_warning.
  cbn [self ros trace inbox rostime logged_once].
  repeat
    (match goal with
     | |- context [match ?f m with Some _ => _ | None => _ end] =>
         destruct (f m); cbn [self ros trace inbox rostime logged_once]
     | |- context [match py_pow2 ?x with Ok _ => _ | Raise _ => _ end] =>
         destruct (py_pow2 x); cbn [self ros trace inbox rostime logged_once]
     | |- context [match math_sqrt ?x with Ok _ => _ | Raise _ => _ end] =>
         destruct (math_sqrt x); cbn [self ros trace inbox rostime logged_once]
     end);
    eexists; (split; [reflexivity|]); cbn [self ros trace inbox rostime];
    repeat split; auto; intros [H | H]; discriminate.
Qed.

(** X3. The arrival check reads and never writes. Whatever the state,
    [reachedGoalWithTolerance] raises nothing and leaves every attribute, the
    pending feedback and the clock as they are; it adds nothing to the trace
    when it answers [True], and at most the warning of its [except] branch
    when it answers [False]. When the active goal or the estimate is missing
    it answers [False] and logs that warning; a missing goal is reported in
    the words of a missing pose. *)
Theorem check_reads_only (v : World) :
  exists b v',
    reachedGoalWithTolerance v = (Ok b, v')
    /\ self v' = self v
    /\ inbox (ros v') = inbox (ros v)
    /\ rostime (ros v') = rostime (ros v)
    /\ (b = true -> trace (ros v') = trace (ros v))
    /\ (trace (ros v') = trace (ros v)
        \/ trace (ros v') = trace (ros v) ++ [no_pose_warning])
    /\ (active_goal (self v) = None \/ estimate (self v) = None ->
        b = false /\ trace (ros v') = trace (ros v) ++ [no_pose_warning]).
Proof.
  destruct (reachedGoalWithTolerance_trace v) as (v' & E & Hs & Hi & Ht & Htr & Hmiss).
  exists (arrived (self v)), v'. repeat split; auto.
  - intros Hb. destruct Htr as [H | [H _]]; [exact H | congruence].
  - destruct Htr as [H | [_ H]]; auto.
  - destruct H as [H | H]; unfold arrived; rewrite H; auto.
    now destruct (active_goal (self v)).
Qed.

(** X4. Numbers that are not finite. With the tolerances of [__init__], a
    NaN or an infinity among the three numbers of the active goal or of the
    estimate makes [reachedGoalWithTolerance] answer [False]. *)
Theorem not_finite_is_not_arrival (v : World) (g e : float * float * float) :
  configured (self v) ->
  active_goal (self v) = Some g ->
  estimate (self v) = Some e ->
  finite_pose g = false \/ finite_pose e = false ->
  exists v', reachedGoalWithTolerance v = (Ok false, v') /\ self v' = self v.
Proof.
  intros Hc Hg He Hnf.
  destruct (reachedGoalWithTolerance_run v) as (v' & E & Hs & _).
  exists v'. rewrite E, (arrived_configured (self v) g e Hc Hg He).
  destruct tolerances_finite as [Hd Ha].
  rewrite (code_check_not_finite _ _ g e Hd Ha Hnf). auto.
Qed.

(** X5. The robot at the goal. With the tolerances of [__init__], when the
    estimate equals the active goal in all three numbers and these are
    finite, [reachedGoalWithTolerance] answers [True] and adds nothing to
    the trace. *)
Theorem exact_pose_is_arrival (v : World) (p : float * float * float) :
  configured (self v) ->
  active_goal (self v) = Some p ->
  estimate (self v) = Some p ->
  finite_pose p = true ->
  exists v',
    reachedGoalWithTolerance v = (Ok true, v')
    /\ self v' = self v
    /\ trace (ros v') = trace (ros v).
Proof.
  intros Hc Hg He Hf.
  assert (Ha : arrived (self v) = true).
  { rewrite (arrived_configured (self v) p p Hc Hg He).
    destruct p as [[x y] yaw]. unfold finite_pose in Hf.
    apply andb_prop in Hf. destruct Hf as [Hf Hyaw].
    apply andb_prop in Hf. destruct Hf as [Hx Hy].
    unfold code_check.
    rewrite (sub_diag_finite x Hx), (sub_diag_finite y Hy), (sub_diag_finite yaw Hyaw).
    reflexivity. }
  destruct (reachedGoalWithTolerance_trace v) as (v' & E & Hs & _ & _ & Htr & _).
  exists v'. rewrite E, Ha. repeat split; auto.
  destruct Htr as [H | [H _]]; [exact H | congruence].
Qed.

(** ** The subscriber's callback *)

Lemma estimate_received (msg : PoseStamped) (m : Mission) :
  estimate (received msg m) = Some (pose_in msg).
Proof.
  unfold received, pose_in.
  destruct (euler_from_quaternion (orientation msg)) as [[r p] yaw]. reflexivity.
Qed.

Lemma absorb_snoc (batch : list PoseStamped) (msg : PoseStamped) (m : Mission) :
  absorb (batch ++ [msg]) m = received msg (absorb batch m).
Proof. unfold absorb. now rewrite fold_left_app. Qed.

Lemma estimate_absorb_some (batch : list PoseStamped) (m : Mission)
    (e : float * float * float) :
  estimate m = Some e -> exists e', estimate (absorb batch m) = Some e'.
Proof.
  revert m e. induction batch as [|msg rest IH]; intros m e He; cbn.
  - eauto.
  - apply (IH _ (pose_in msg)), estimate_received.
Qed.

Lemma estimate_absorb_n_some (k : nat) (ib : list (list PoseStamped)) (m : Mission)
    (e : float * float * float) :
  estimate m = Some e -> exists e', estimate (absorb_n k ib m) = Some e'.
Proof.
  revert ib m e. induction k as [|k IH]; intros ib m e He; cbn.
  - eauto.
  - destruct (estimate_absorb_some (hd [] ib) m e He) as [e1 H1].
    apply (IH _ _ e1 H1).
Qed.

(** X6. The callback overwrites. [poseCallback] raises nothing; whatever
    was stored, the estimate is afterwards the position of the message and
    the yaw of its orientation; the goal list, the index, the tolerances and
    the active goal are untouched, and nothing is published or slept. After a
    batch of messages the estimate is that of the last one. *)
Theorem poseCallback_overwrites :
  (forall msg w,
     exists w',
       poseCallback msg w = (Ok tt, w')
       /\ estimate (self w') = Some (pose_in msg)
       /\ sequencer_state (self w') = sequencer_state (self w)
       /\ effects (trace (ros w')) = effects (trace (ros w)))
  /\ (forall batch msg w,
        exists w',
          deliver (batch ++ [msg]) w = (Ok tt, w')
          /\ estimate (self w') = Some (pose_in msg)
          /\ sequencer_state (self w') = sequencer_state (self w)).
Proof.
  split.
  - intros msg w. destruct (poseCallback_run msg w) as (w' & E & Hs & T & _).
    exists w'. rewrite Hs, T, app_nil_r.
    repeat split; auto using estimate_received, received_sequencer_state.
  - intros batch msg w.
    destruct (deliver_run (batch ++ [msg]) w) as (w' & E & Hs & _).
    exists w'. rewrite Hs. repeat split; auto using absorb_sequencer_state.
    rewrite absorb_snoc. apply estimate_received.
Qed.

(** X7. Goal and feedback do not interfere. [setGoal] and [poseCallback]
    assign different attributes: in either order they leave the same state
    and the same published message. *)
Theorem setGoal_poseCallback_commute (x y yaw : float) (msg : PoseStamped) (w : World) :
  exists w1 w2,
    (setGoal x y yaw ;;; poseCallback msg) w = (Ok tt, w1)
    /\ (poseCallback msg ;;; setGoal x y yaw) w = (Ok tt, w2)
    /\ self w1 = self w2
    /\ effects (trace (ros w1)) = effects (trace (ros w2))
    /\ active_goal (self w1) = Some (x, y, yaw)
    /\ estimate (self w1) = Some (pose_in msg).
Proof.
  destruct w as [m [tr ib t once]].
  unfold bind, setGoal, poseCallback, loginfo_once, get_rostime, emit,
    set_goal_pose, get_self, put_self, bind.
  cbn [self ros trace inbox rostime logged_once fst snd].
  destruct once; do 2 eexists; (split; [reflexivity|]); (split; [reflexivity|]);
    cbn [self ros trace]; rewrite ?received_with_goal_pose, ?effects_app;
    repeat split; try exact (estimate_received msg m); try reflexivity;
    cbn; rewrite ?app_nil_r; reflexivity.
Qed.

(** ** One activation, further *)

Lemma estimate_with_goal_idx (v : PyNum) (m : Mission) :
  estimate (with_goal_idx v m) = estimate m.
Proof. reflexivity. Qed.

(** X8. An estimate is never lost. If a pose estimate is stored before an
    activation, one is stored after it, whatever the result: nothing in
    [execute] or in the callbacks removes it. Without feedback during the
    activation it is the same estimate. *)
Theorem estimate_persists (w : World) (r : Result Outcome) (w' : World)
    (e : float * float * float) :
  execute w = (r, w') ->
  estimate (self w) = Some e ->
  (exists e', estimate (self w') = Some e')
  /\ (Forall (fun batch => batch = []) (inbox (ros w)) ->
      estimate (self w') = Some e).
Proof.
  intros E He. apply execute_activation in E.
  inversion E as [ w1 Hge Hs T
                 | ex Hge Hg
                 | name g n w1 Hsel Hf Hs _ _ _
                 | name g o w1 Hsel Hf Hs _ _ _ Ho]; subst.
  - rewrite Hs, estimate_with_goal_idx. eauto.
  - eauto.
  - rewrite Hs, absorb_n_with_goal. unfold bump.
    rewrite estimate_with_goal_idx, estimate_with_goal. split.
    + apply (estimate_absorb_n_some n _ _ e He).
    + intros Hq. now rewrite absorb_n_empty.
  - rewrite Hs, absorb_n_with_goal. unfold settle, bump.
    destruct (py_eq _ 0); cbn [snd];
      rewrite estimate_with_goal_idx, estimate_with_goal; (split;
      [ apply (estimate_absorb_n_some 4 _ _ e He)
      | intros Hq; now rewrite absorb_n_empty ]).
Qed.

(** *** Feedback that comes too late *)





(** ** What the log tells *)

Lemma wait_loop_hit_log (c : nat) (w : World) (o : Outcome) (w' : World) :
  wait_loop c w = (Ok (Some o), w') ->
  exists tr,
    trace (ros w')
    = tr ++ [Checked true;
             Log Info "Goal reached before countdown ended. Loading next goal..."].
Proof.
  revert w. induction c as [|c IH]; intros w E.
  - discriminate.
  - destruct (reachedGoalWithTolerance_run w) as (w1 & E1 & _).
    cbn [wait_loop] in E. unfold bind at 1 in E. rewrite E1 in E.
    destruct (arrived (self w)).
    + unfold bind, emit, loginfo, emit, get_self, set_goal_idx, ret in E.
      cbn [self ros trace inbox rostime logged_once] in E.
      injection E as _ <-. cbn [ros trace].
      exists (trace (ros w1)). now rewrite <- app_assoc.
    + unfold bind at 1 in E. unfold emit at 1 in E.
      unfold bind at 1 in E. unfold loginfo at 1 in E. unfold emit at 1 in E.
      cbn [self ros trace inbox rostime logged_once] in E.
      match type of E with context [bind (rospy_sleep 1) _ ?w2] =>
        destruct (rospy_sleep_run 1 w2) as (w3 & E3 & _) end.
      unfold bind at 1 in E. rewrite E3 in E.
      apply (IH w3 E).
Qed.

(** X16. The log tells the branch. The last lines that an activation
    leaves in the trace name the branch that returned: the line of
    completion for ['Completed'], two warnings for ['Aborted'], and for
    ['Next Goal'] either the line of arrival after a successful check or
    the two warnings of a skip; an activation that raises leaves the trace
    as it was. *)
Theorem outcome_is_logged (w : World) (r : Result Outcome) (w' : World) :
  execute w = (r, w') ->
  match r with
  | Ok Completed =>
      trace (ros w')
      = trace (ros w) ++ [Log Info "No more goals left in this mission."]
  | Ok Aborted =>
      exists tr,
        trace (ros w')
        = tr ++ [Log Warn "Countdown ended without reaching current goal.";
                 Log Warn "Starting goal of mission unreachable. Aborting mission..."]
  | Ok Next_Goal =>
      exists tr,
        trace (ros w')
        = tr ++ [Checked true;
                 Log Info "Goal reached before countdown ended. Loading next goal..."]
        \/ trace (ros w')
           = tr ++ [Log Warn "Countdown ended without reaching current goal.";
                    Log Warn "Skipping current goal..."]
  | Raise _ => trace (ros w') = trace (ros w)
  end.
Proof.
  intros E.
  destruct (py_ge (goal_idx (self w)) (len (mission_data (self w)))) eqn:Hge.
  { unfold execute, bind, get_self in E. rewrite Hge in E.
    injection E as <- <-. reflexivity. }
  destruct (current_goal (self w)) as [[name g]|ex] eqn:Hg.
  2:{ rewrite (execute_raises w ex Hge Hg) in E. now injection E as <- <-. }
  unfold execute in E. unfold bind at 1 in E. unfold get_self at 1 in E.
  rewrite Hge in E. unfold bind at 1 in E. unfold lift at 1 in E. rewrite Hg in E.
  unfold bind at 1 in E. unfold setGoal, get_rostime, bind at 1 in E.
  unfold bind at 1 in E. unfold bind at 1 in E. unfold emit at 1 in E.
  unfold set_goal_pose in E.
  unfold bind at 1 in E. unfold loginfo at 1 in E. unfold emit at 1 in E.
  cbn [self ros trace inbox rostime logged_once fst snd] in E.
  unfold bind at 1 in E.
  match type of E with context [wait_loop 4 ?w2] =>
    destruct (wait_loop 4 w2) as [[[o|]|ex] w3] eqn:E3 end.
  - unfold ret in E. injection E as <- <-.
    destruct (wait_loop_hit_log 4 _ o w3 E3) as [tr Htr].
    assert (Ho : o = Next_Goal).
    { match type of E3 with wait_loop 4 ?w2 = _ =>
        destruct (wait_loop_run 4 w2) as (w4 & E4 & _) end.
      rewrite E3 in E4.
      match type of E4 with context [option_map _ ?fh] => destruct fh end;
        cbn [option_map] in E4; [now injection E4 as -> _ | discriminate]. }
    subst o. exists tr. left. exact Htr.
  - unfold bind, logwarn, emit, get_self, set_goal_idx, ret in E.
    cbn [self ros trace inbox rostime logged_once] in E.
    destruct (py_eq (goal_idx (self w3)) 0); injection E as <- <-;
      cbn [ros trace]; exists (trace (ros w3)).
    + now rewrite <- app_assoc.
    + right. now rewrite <- app_assoc.
  - exfalso.
    match type of E3 with wait_loop 4 ?w2 = _ =>
      destruct (wait_loop_run 4 w2) as (w4 & E4 & _) end.
    rewrite E3 in E4. discriminate.
Qed.

(** ** The wait loop on its own *)

(** X15. The order of the wait loop. From any state, the loop of lines 67
    to 76 alternates a check that fails with a sleep of one second, and
    ends either with a check that succeeds after fewer than four sleeps,
    moving the index up by one and returning ['Next Goal'], or after the
    fourth sleep without a further check and with the index as it was.
    This is the loop as it is written: an activation raises at line 61
    before it gets to the loop. *)
Theorem wait_loop_order (w : World) :
  exists w',
    (exists n,
       (n < 4)%nat
       /\ wait_loop 4 w = (Ok (Some Next_Goal), w')
       /\ effects (trace (ros w'))
          = effects (trace (ros w)) ++ ticks n ++ [Checked true]
       /\ goal_idx (self w') = py_succ (goal_idx (self w)))
    \/ (wait_loop 4 w = (Ok None, w')
        /\ effects (trace (ros w')) = effects (trace (ros w)) ++ ticks 4
        /\ goal_idx (self w') = goal_idx (self w)).
Proof.
  destruct (wait_loop_run 4 w) as (w' & E & Hs & T).
  exists w'. unfold loop_state, loop_effects in *.
  destruct (first_hit 4 (inbox (ros w)) (self w)) as [n|] eqn:Hf.
  - left. exists n. apply first_hit_some in Hf. destruct Hf as [Hn _].
    destruct (sequencer_state_inv _ _
                (absorb_n_sequencer_state n (inbox (ros w)) (self w)))
      as (_ & Hi & _).
    rewrite Hs. cbn [bump with_goal_idx goal_idx]. rewrite Hi. auto.
  - right.
    destruct (sequencer_state_inv _ _
                (absorb_n_sequencer_state 4 (inbox (ros w)) (self w)))
      as (_ & Hi & _).
    rewrite Hs, Hi. auto.
Qed.

End Sequencer.

(** * The properties on examples *)


(** The first activation on two goals raises and leaves the world, and
    with it the index in range. *)
Lemma index_invariant_witness :
  let w := fresh two_goals [] in
  index_in_range (self w)
  /\ execute product_pow yaw_to_quaternion quaternion_to_yaw w = (Raise TypeError, w)
  /\ index_in_range (self w)
  /\ mission_data (self w) = mission_data (self w)
  /\ (Raise TypeError = Ok Next_Goal ->
      py_ge (goal_idx (self w)) (len (mission_data (self w))) = false
      /\ goal_idx (self w) = py_succ (goal_idx (self w)))
  /\ (Raise TypeError = Ok Aborted ->
      py_eq (goal_idx (self w)) 0 = true /\ py_eq (goal_idx (self w)) 0 = true)
  /\ (forall e, @Raise Outcome TypeError = Raise e -> w = w)
  /\ (Raise TypeError = Ok Completed -> goal_idx (self w) = PyInt 0)
  /\ (Raise TypeError = Ok Completed <->
      py_eq (goal_idx (self w)) (len (mission_data (self w))) = true).
Proof.
  intros w.
  assert (H1 : index_in_range (self w)) by (split; reflexivity).
  assert (H2 : execute product_pow yaw_to_quaternion quaternion_to_yaw w
               = (Raise TypeError, w)) by reflexivity.
  split; [exact H1|]. split; [exact H2|].
  exact (index_invariant product_pow yaw_to_quaternion quaternion_to_yaw w
           (Raise TypeError) w H1 H2).
Defined.

(** The same check from two worlds that differ in the goal list, the
    index and the goal recorded before: the robot is reported at the origin
    during the first sleep. *)
Lemma active_goal_snapshot_witness :
  let w1 := fresh two_goals [[pose_msg 0 0 0]] in
  let w2 := mkWorld (with_goal_idx (PyInt 1)
                       (with_goal (mkGoal 5 0 0) (Mission_init near_goals)))
              (mkRos [] [[pose_msg 0 0 0]] (0, 0) false) in
  feedback_state (self w1) = feedback_state (self w2)
  /\ fst ((setGoal yaw_to_quaternion 0 0 0 ;;; wait_loop product_pow quaternion_to_yaw 4) w1)
     = Ok (Some Next_Goal)
  /\ exists res evs w1' w2',
       (setGoal yaw_to_quaternion 0 0 0 ;;; wait_loop product_pow quaternion_to_yaw 4) w1
       = (res, w1')
       /\ (setGoal yaw_to_quaternion 0 0 0 ;;; wait_loop product_pow quaternion_to_yaw 4) w2
          = (res, w2')
       /\ effects (trace (ros w1')) = effects (trace (ros w1)) ++ evs
       /\ effects (trace (ros w2')) = effects (trace (ros w2)) ++ evs
       /\ active_goal (self w1') = Some (0, 0, 0)%float
       /\ active_goal (self w2') = Some (0, 0, 0)%float.
Proof.
  intros w1 w2.
  assert (H : feedback_state (self w1) = feedback_state (self w2)) by reflexivity.
  split; [exact H|]. split; [vm_compute; reflexivity|].
  exact (proj1 (proj2 (proj2 (active_goal_snapshot product_pow yaw_to_quaternion
                                quaternion_to_yaw)))
           0%float 0%float 0%float 4%nat w1 w2 H eq_refl eq_refl eq_refl eq_refl).
Defined.

(** The frame on an activation that raises. *)
Lemma execute_frame_witness :
  let w := fresh two_goals [[pose_msg 0 0 0]] in
  execute product_pow yaw_to_quaternion quaternion_to_yaw w = (Raise TypeError, w)
  /\ mission_data (self w) = mission_data (self w)
  /\ distance_to_goal_tolerance_m (self w) = distance_to_goal_tolerance_m (self w)
  /\ angle_to_goal_tolerance_rad (self w) = angle_to_goal_tolerance_rad (self w)
  /\ exists n,
       (n <= 4)%nat
       /\ sleeps (trace (ros w)) = (sleeps (trace (ros w)) + n)%nat
       /\ feedback_state (self w)
          = feedback_state (absorb_n quaternion_to_yaw n (inbox (ros w)) (self w)).
Proof.
  intros w.
  assert (H : execute product_pow yaw_to_quaternion quaternion_to_yaw w
              = (Raise TypeError, w)) by reflexivity.
  split; [exact H|].
  exact (execute_frame product_pow yaw_to_quaternion quaternion_to_yaw w
           (Raise TypeError) w H).
Defined.

(** A goal whose [x_m] is a NaN, and the robot at the origin. *)
Lemma not_finite_is_not_arrival_witness :
  let v := mkWorld (set_estimated 0 0 0
                      (with_goal (mkGoal nan 0 0) (Mission_init two_goals)))
             (mkRos [] [] (0, 0) false) in
  configured (self v)
  /\ active_goal (self v) = Some (nan, 0, 0)%float
  /\ estimate (self v) = Some (0, 0, 0)%float
  /\ (finite_pose (nan, 0, 0)%float = false \/ finite_pose (0, 0, 0)%float = false)
  /\ exists v', reachedGoalWithTolerance product_pow v = (Ok false, v') /\ self v' = self v.
Proof.
  intros v.
  assert (H1 : configured (self v)) by (split; reflexivity).
  assert (H2 : active_goal (self v) = Some (nan, 0, 0)%float) by reflexivity.
  assert (H3 : estimate (self v) = Some (0, 0, 0)%float) by reflexivity.
  assert (H4 : finite_pose (nan, 0, 0)%float = false
               \/ finite_pose (0, 0, 0)%float = false) by (left; reflexivity).
  split; [exact H1|]. split; [exact H2|]. split; [exact H3|]. split; [exact H4|].
  exact (not_finite_is_not_arrival product_pow v (nan, 0, 0)%float (0, 0, 0)%float
           H1 H2 H3 H4).
Defined.

(** The robot at the goal [(1.5, -2, 0.25)]. *)
Lemma exact_pose_is_arrival_witness :
  let v := mkWorld (set_estimated 1.5 (-2) 0.25
                      (with_goal (mkGoal 1.5 (-2) 0.25) (Mission_init two_goals)))
             (mkRos [] [] (0, 0) false) in
  configured (self v)
  /\ active_goal (self v) = Some (1.5, -2, 0.25)%float
  /\ estimate (self v) = Some (1.5, -2, 0.25)%float
  /\ finite_pose (1.5, -2, 0.25)%float = true
  /\ exists v',
       reachedGoalWithTolerance product_pow v = (Ok true, v')
       /\ self v' = self v
       /\ trace (ros v') = trace (ros v).
Proof.
  intros v.
  assert (H1 : configured (self v)) by (split; reflexivity).
  assert (H2 : active_goal (self v) = Some (1.5, -2, 0.25)%float) by reflexivity.
  assert (H3 : estimate (self v) = Some (1.5, -2, 0.25)%float) by reflexivity.
  assert (H4 : finite_pose (1.5, -2, 0.25)%float = true) by reflexivity.
  split; [exact H1|]. split; [exact H2|]. split; [exact H3|]. split; [exact H4|].
  exact (exact_pose_is_arrival product_pow v (1.5, -2, 0.25)%float H1 H2 H3 H4).
Defined.

(** An estimate three metres off is kept through an activation that
    raises. *)
Lemma estimate_persists_witness :
  let w := mkWorld (set_estimated 3 3 0 (Mission_init two_goals))
             (mkRos [] [] (0, 0) false) in
  execute product_pow yaw_to_quaternion quaternion_to_yaw w = (Raise TypeError, w)
  /\ estimate (self w) = Some (3, 3, 0)%float
  /\ (exists e', estimate (self w) = Some e')
  /\ (Forall (fun batch => batch = []) (inbox (ros w)) ->
      estimate (self w) = Some (3, 3, 0)%float).
Proof.
  intros w.
  assert (H1 : execute product_pow yaw_to_quaternion quaternion_to_yaw w
               = (Raise TypeError, w)) by reflexivity.
  assert (H2 : estimate (self w) = Some (3, 3, 0)%float) by reflexivity.
  split; [exact H1|]. split; [exact H2|].
  exact (estimate_persists product_pow yaw_to_quaternion quaternion_to_yaw w
           (Raise TypeError) w (3, 3, 0)%float H1 H2).
Defined.


(** The completion of a mission of two goals is logged in one line. *)
Lemma outcome_is_logged_witness :
  let w := mkWorld (with_goal_idx (PyInt 2) (Mission_init two_goals))
             (mkRos [] [] (0, 0) false) in
  let w' := snd (execute product_pow yaw_to_quaternion quaternion_to_yaw w) in
  execute product_pow yaw_to_quaternion quaternion_to_yaw w = (Ok Completed, w')
  /\ trace (ros w')
     = trace (ros w) ++ [Log Info "No more goals left in this mission."].
Proof.
  intros w w'.
  assert (H : execute product_pow yaw_to_quaternion quaternion_to_yaw w
              = (Ok Completed, w')) by reflexivity.
  split; [exact H|].
  exact (outcome_is_logged product_pow yaw_to_quaternion quaternion_to_yaw w
           (Ok Completed) w' H).
Defined.
